(** * Daily tracker: the browser-side controller of static/script.js

    A shallow embedding of the client script and the properties of its
    event handlers.  The script is a flat, event-driven controller over a
    fixed page: handlers read and write form controls, the [innerHTML] of
    five regions, one toast and the tab selectors, and talk to the REST
    backend through [fetch].

    Layout of the development:
    - [JSNumber], [JSDate]: the parts of the JavaScript runtime the script
      calls (number formatting, [Math.min], the date algorithms);
    - [ClassList], the page state [World] and a small state-and-exception
      monad for handler bodies;
    - the handlers of script.js, under their source names;
    - the event loop that runs them;
    - [formatDate] and the page-load handler, with the calendar arithmetic
      they need ([JSCalendar]);
    - the properties of the handlers, then those of page load, of the
      renderers and of whole sequences of events. *)

From Stdlib Require Import ZArith QArith Qround Qabs.
From Stdlib Require Import String Ascii List Bool Lia DecimalString.
From Stdlib Require Import DecimalPos DecimalN.
From Stdlib Require Import Floats.PrimFloat Floats.SpecFloat Floats.FloatOps.
From Stdlib Require Floats.FloatAxioms.
Import ListNotations.

Open Scope string_scope.
Open Scope Z_scope.

(* ================================================================== *)
(** * Numbers of the JavaScript runtime *)
(* ================================================================== *)

(** A JavaScript Number is an IEEE 754 binary64, here the kernel's [float].
    The script formats numbers in two ways: implicitly in template
    literals (Number::toString, radix 10) and with [toFixed(1)].  Both are
    defined in ECMA-262 on the exact real value of the double, so both are
    computed below in exact rational arithmetic. *)
Module JSNumber.

(** Decimal digits of a non-negative integer. *)
Definition decimal (z : Z) : string :=
  NilZero.string_of_uint (N.to_uint (Z.to_N z)).

Fixpoint zeros (n : nat) : string :=
  match n with
  | O => ""
  | S n' => "0" ++ zeros n'
  end.

Definition pow10 (n : Z) : Q := Qpower (10 # 1) n.
Definition pow2 (n : Z) : Q := Qpower (2 # 1) n.

(** The real number a finite non-zero double stands for, from the mantissa
    and exponent [Prim2SF] gives: [m * 2^e]. *)
Definition real_of (m : positive) (e : Z) : Q := (Z.pos m # 1) * pow2 e.

(** ** Number::toString *)

(** Distance from the double [m * 2^e] to the next double below it: half
    the usual gap when [m] is the least normal mantissa. *)
Definition gap_below (m : positive) (e : Z) : Q :=
  if (Z.pos m =? 2 ^ 52) && (-1074 <? e) then pow2 (e - 1) else pow2 e.

(** [rounds_to m e v]: the real [v] rounds (to nearest, ties to even) to
    the double [m * 2^e]. *)
Definition rounds_to (m : positive) (e : Z) (v : Q) : bool :=
  let x := real_of m e in
  let lo := (x - gap_below m e / (2 # 1))%Q in
  let hi := (x + pow2 e / (2 # 1))%Q in
  if Z.even (Z.pos m) then Qle_bool lo v && Qle_bool v hi
  else negb (Qle_bool v lo) && negb (Qle_bool hi v).

(** The least [n] from [n] on with [x < 10^n]. *)
Fixpoint magnitude_from (fuel : nat) (n : Z) (x : Q) : Z :=
  match fuel with
  | O => n
  | S fuel' => if Qle_bool (pow10 n) x then magnitude_from fuel' (n + 1) x else n
  end.

(** [magnitude m e] is the [n] with [10^(n-1) <= m * 2^e < 10^n]; the
    search starts from an under-estimate taken from the binary exponent. *)
Definition magnitude (m : positive) (e : Z) : Z :=
  let b := Z.log2 (Z.pos m) + e in
  magnitude_from 8 (b * 30103 / 100000 - 1) (real_of m e).

(** The [k]-digit decimals next to [x = m * 2^e]: returns [(n, k', s)]
    with [s * 10^(n-k')] rounding to [x], the closer one (the even one on a
    tie) when both neighbours do. *)
Definition candidate (m : positive) (e : Z) (n0 k : Z) : option (Z * Z * Z) :=
  let x := real_of m e in
  let scale := pow10 (n0 - k) in
  let s1 := Qfloor (x / scale)%Q in
  let s2 := s1 + 1 in
  let v1 := ((s1 # 1) * scale)%Q in
  let v2 := ((s2 # 1) * scale)%Q in
  let pick (s : Z) := if s =? 10 ^ k then Some (n0 + 1, 1, 1) else Some (n0, k, s) in
  match rounds_to m e v1, rounds_to m e v2 with
  | false, false => None
  | true, false => pick s1
  | false, true => pick s2
  | true, true =>
      match Qcompare (Qabs (v1 - x)%Q) (Qabs (v2 - x)%Q) with
      | Lt => pick s1
      | Gt => pick s2
      | Eq => if Z.even s1 then pick s1 else pick s2
      end
  end.

(** Step 5 of Number::toString: [n], [k], [s] with [k] as small as
    possible.  Seventeen digits always identify a double. *)
Fixpoint shortest (fuel : nat) (m : positive) (e : Z) (n0 k : Z) : Z * Z * Z :=
  match fuel with
  | O => (n0, k, Qfloor (real_of m e / pow10 (n0 - k))%Q)
  | S fuel' =>
      match candidate m e n0 k with
      | Some r => r
      | None => shortest fuel' m e n0 (k + 1)
      end
  end.

Definition exponent_part (n : Z) : string :=
  "e" ++ (if 0 <=? n - 1 then "+" else "-") ++ decimal (Z.abs (n - 1)).

(** Steps 6 to 11: lay the digits out. *)
Definition finite_to_string (m : positive) (e : Z) : string :=
  let '(n, k, s) := shortest 17 m e (magnitude m e) 1 in
  let ds := decimal s in
  if (k <=? n) && (n <=? 21) then
    ds ++ zeros (Z.to_nat (n - k))
  else if (0 <? n) && (n <=? 21) then
    substring 0 (Z.to_nat n) ds ++ "." ++ substring (Z.to_nat n) (Z.to_nat (k - n)) ds
  else if (-6 <? n) && (n <=? 0) then
    "0." ++ zeros (Z.to_nat (- n)) ++ ds
  else if k =? 1 then
    ds ++ exponent_part n
  else
    substring 0 1 ds ++ "." ++ substring 1 (Z.to_nat (k - 1)) ds ++ exponent_part n.

(** What a template literal does to a Number: [`${x}`]. *)
Definition toString (x : float) : string :=
  match Prim2SF x with
  | S754_nan => "NaN"
  | S754_zero _ => "0"
  | S754_infinity s => if s then "-Infinity" else "Infinity"
  | S754_finite s m e => (if s then "-" else "") ++ finite_to_string m e
  end.

(** ** Number.prototype.toFixed *)

(** The integer [n] with [n / 10^f - x] closest to zero, the larger one
    of two. *)
Definition round_half_up (q : Q) : Z := Qfloor (q + (1 # 2))%Q.

Definition fixed_digits (f : nat) (n : Z) : string :=
  let m := decimal n in
  if (f =? 0)%nat then m
  else
    let m := if (String.length m <=? f)%nat
             then zeros (f + 1 - String.length m) ++ m else m in
    let k := String.length m in
    substring 0 (k - f) m ++ "." ++ substring (k - f) f m.

Definition toFixed (f : nat) (x : float) : string :=
  match Prim2SF x with
  | S754_finite s m e =>
      let r := real_of m e in
      (if s then "-" else "") ++
      (if Qle_bool (pow10 21) r then finite_to_string m e
       else fixed_digits f (round_half_up (r * pow10 (Z.of_nat f))%Q))
  | S754_zero _ => fixed_digits f 0
  | _ => toString x
  end.

(** ** Math.min and truthiness *)

(** [Math.min(a, b)]: NaN if either is NaN, and [-0] is below [+0]. *)
Definition Math_min (a b : float) : float :=
  if is_nan a || is_nan b then nan
  else if ltb a b then a
  else if ltb b a then b
  else if get_sign a then a else b.

(** A Number is falsy when it is [0], [-0] or NaN. *)
Definition truthy (x : float) : bool :=
  negb (is_nan x || is_zero x).

End JSNumber.

(* ================================================================== *)
(** * What the browser supplies *)
(* ================================================================== *)

(** The option bags the script passes to [toLocaleDateString('en-US', _)]. *)
Inductive DateFormat : Type :=
| LongDate          (* weekday long, year numeric, month long, day numeric *)
| MonthLong         (* month long *)
| ShortWeekdayDate  (* weekday short, month short, day numeric, year numeric *)
| MonthDay.         (* month short, day numeric *)

(** A time value is the number of milliseconds since the epoch; a Date
    object that holds NaN (an invalid date) is [None]. *)
Class Host : Type := {
  (** [window.location.origin] *)
  origin : string;
  (** ECMA-262 LocalTZA(t, isUTC): the offset of local time, in ms *)
  LocalTZA : Z -> bool -> Z;
  (** a time zone offset is less than a day *)
  LocalTZA_bounded : forall t isUTC, - 86400000 < LocalTZA t isUTC < 86400000;
  (** [new Date(s)] for a string [s] *)
  Date_parse : string -> option Z;
  (** [new Date(year, monthIndex)] *)
  Date_year_month : float -> float -> option Z;
  (** [d.toLocaleDateString('en-US', options)] *)
  toLocaleDateString : DateFormat -> option Z -> string
}.

(* ================================================================== *)
(** * Dates of the JavaScript runtime *)
(* ================================================================== *)

(** The day and year arithmetic of ECMA-262 (Time Values and Time Range,
    Day Number, Year Number, Week Day, Local Time), on exact integers. *)
Module JSDate.

Definition msPerDay : Z := 86400000.

Definition Day (t : Z) : Z := t / msPerDay.

Definition DayFromYear (y : Z) : Z :=
  365 * (y - 1970) + (y - 1969) / 4 - (y - 1901) / 100 + (y - 1601) / 400.

Definition TimeFromYear (y : Z) : Z := msPerDay * DayFromYear y.

(** The largest [y] with [TimeFromYear y <= t]: a first guess from the
    length of the 400-year cycle, off by at most one. *)
Definition YearFromTime (t : Z) : Z :=
  let d := Day t in
  let y := 1970 + d * 400 / 146097 in
  if d <? DayFromYear y then y - 1
  else if DayFromYear (y + 1) <=? d then y + 1
  else y.

(** 0 is Sunday; the epoch was a Thursday. *)
Definition WeekDay (t : Z) : Z := (Day t + 4) mod 7.

Section Local.
Context `{Host}.

Definition LocalTime (t : Z) : Z := t + LocalTZA t true.
Definition UTC (t : Z) : Z := t - LocalTZA t false.

(** [d.getFullYear()] and [d.getDay()] of a Date with time value [t]. *)
Definition getFullYear (t : Z) : Z := YearFromTime (LocalTime t).
Definition getDay (t : Z) : Z := WeekDay (LocalTime t).

(** The Date constructor reads a year from 0 to 99 as 1900 + year. *)
Definition MakeFullYear (y : Z) : Z :=
  if (0 <=? y) && (y <=? 99) then 1900 + y else y.

(** [new Date(y, 0, 1)]: local midnight of January 1st.  MakeDay of
    month 0, date 1 is the day number the year starts with. *)
Definition Date_jan1 (y : Z) : Z :=
  UTC (msPerDay * DayFromYear (MakeFullYear y)).
End Local.

End JSDate.

(* ================================================================== *)
(** * The page *)
(* ================================================================== *)

(** [element.classList]: an ordered set of tokens. *)
Module ClassList.

Definition contains (c : string) (l : list string) : bool :=
  existsb (String.eqb c) l.

Definition add (c : string) (l : list string) : list string :=
  if contains c l then l else l ++ [c].

Definition remove (c : string) (l : list string) : list string :=
  filter (fun x => negb (String.eqb c x)) l.

End ClassList.

(** The seven task flags, as the checkboxes of the form and as the boolean
    fields of an entry. *)
Inductive Task : Type := Gym | Dsa | Ml | Django | Sql | ProjectWork | Aws.

Record Flags : Type := mkFlags {
  gym : bool;
  dsa : bool;
  ml : bool;
  django : bool;
  sql : bool;
  project_work : bool;
  aws : bool
}.

Definition flag (t : Task) (f : Flags) : bool :=
  match t with
  | Gym => gym f
  | Dsa => dsa f
  | Ml => ml f
  | Django => django f
  | Sql => sql f
  | ProjectWork => project_work f
  | Aws => aws f
  end.

Definition set_flag (t : Task) (b : bool) (f : Flags) : Flags :=
  match t with
  | Gym => mkFlags b (dsa f) (ml f) (django f) (sql f) (project_work f) (aws f)
  | Dsa => mkFlags (gym f) b (ml f) (django f) (sql f) (project_work f) (aws f)
  | Ml => mkFlags (gym f) (dsa f) b (django f) (sql f) (project_work f) (aws f)
  | Django => mkFlags (gym f) (dsa f) (ml f) b (sql f) (project_work f) (aws f)
  | Sql => mkFlags (gym f) (dsa f) (ml f) (django f) b (project_work f) (aws f)
  | ProjectWork => mkFlags (gym f) (dsa f) (ml f) (django f) (sql f) b (aws f)
  | Aws => mkFlags (gym f) (dsa f) (ml f) (django f) (sql f) (project_work f) b
  end.

Definition unchecked : Flags := mkFlags false false false false false false false.

(** ** Payloads of the REST interface *)

(** The body of [POST /api/daily/]. *)
Record FormData : Type := mkFormData {
  fd_date : string;
  fd_flags : Flags
}.

(** An entry as [/api/today] and [/api/daily/] return it; [exists_] is its
    [exists] field. *)
Record DailyEntry : Type := mkDailyEntry {
  entry_date : string;
  entry_flags : Flags;
  exists_ : bool
}.

Record Stats : Type := mkStats {
  total_days_tracked : float;
  total_weeks_reported : option float;
  total_months_reported : option float
}.

Record WeeklyReport : Type := mkWeeklyReport {
  week_number : float;
  wr_year : float;
  start_date : string;
  end_date : string;
  total_score : float;
  gym_percentage : float;
  dsa_percentage : float;
  ml_percentage : float;
  django_percentage : float;
  sql_percentage : float;
  project_percentage : float;
  aws_percentage : float
}.

Record MonthlyReport : Type := mkMonthlyReport {
  mr_year : float;
  month : float;
  mr_total_days_tracked : float;
  avg_gym : float;
  avg_dsa : float;
  avg_ml : float;
  avg_django : float;
  avg_sql : float;
  avg_project : float;
  avg_aws : float
}.

(** The error JSON of a refused submission; [None] when the object has no
    [detail] field. *)
Record ErrorBody : Type := mkErrorBody {
  detail : option string
}.

(** How an awaited [fetch] ends.  [json] is what [await response.json()]
    gives when the handler asks for it, [None] when that promise rejects
    (the body is not JSON). *)
Inductive Outcome (A : Type) : Type :=
| NetworkError
| Response (ok : bool) (json : option A).
Arguments NetworkError {A}.
Arguments Response {A} ok json.

(** ** Requests *)

Record Request : Type := mkRequest {
  req_method : string;
  req_url : string;
  req_body : option FormData
}.

(** The async functions of the script; each is suspended at one [fetch]. *)
Inductive Pending : Type :=
| PSubmit | PStats | PToday | PWeekly | PMonthly | PHistory.

Definition Payload (p : Pending) : Type :=
  match p with
  | PSubmit => ErrorBody
  | PStats => Stats
  | PToday => DailyEntry
  | PWeekly => list WeeklyReport
  | PMonthly => list MonthlyReport
  | PHistory => list DailyEntry
  end.

(** ** The state of the page *)

Record Form : Type := mkForm {
  date_value : string;
  startDate_value : string;
  endDate_value : string;
  checked : Flags
}.

(** The five regions the read operations render into, by element id. *)
Inductive Region : Type :=
| stats | todayStatus | historyList | weeklyReports | monthlyReports.

Record Regions : Type := mkRegions {
  stats_html : string;
  todayStatus_html : string;
  historyList_html : string;
  weeklyReports_html : string;
  monthlyReports_html : string
}.

Definition innerHTML (r : Region) (rs : Regions) : string :=
  match r with
  | stats => stats_html rs
  | todayStatus => todayStatus_html rs
  | historyList => historyList_html rs
  | weeklyReports => weeklyReports_html rs
  | monthlyReports => monthlyReports_html rs
  end.

Definition set_innerHTML (r : Region) (h : string) (rs : Regions) : Regions :=
  match r with
  | stats =>
      mkRegions h (todayStatus_html rs) (historyList_html rs)
                (weeklyReports_html rs) (monthlyReports_html rs)
  | todayStatus =>
      mkRegions (stats_html rs) h (historyList_html rs)
                (weeklyReports_html rs) (monthlyReports_html rs)
  | historyList =>
      mkRegions (stats_html rs) (todayStatus_html rs) h
                (weeklyReports_html rs) (monthlyReports_html rs)
  | weeklyReports =>
      mkRegions (stats_html rs) (todayStatus_html rs) (historyList_html rs)
                h (monthlyReports_html rs)
  | monthlyReports =>
      mkRegions (stats_html rs) (todayStatus_html rs) (historyList_html rs)
                (weeklyReports_html rs) h
  end.

(** The [textContent] of #current-date, #week-number and #month-name. *)
Record DateInfo : Type := mkDateInfo {
  current_date_text : string;
  week_number_text : string;
  month_name_text : string
}.

(** #toast with its .toast-message and .toast-icon children. *)
Record Toast : Type := mkToast {
  toast_message : string;
  icon_className : string;
  background : string;
  toast_classes : list string
}.

(** A .tab-btn; [data_tab] is what [getAttribute('data-tab')] returns,
    [None] for null. *)
Record TabBtn : Type := mkTabBtn {
  data_tab : option string;
  btn_classes : list string
}.

(** A .tab-content. *)
Record TabPanel : Type := mkTabPanel {
  panel_id : string;
  panel_classes : list string
}.

Record Tabs : Type := mkTabs {
  tab_btns : list TabBtn;
  tab_panels : list TabPanel;
  currentTab : option string
}.

Record Net : Type := mkNet {
  (** every [fetch] issued so far, oldest first *)
  requests : list Request;
  (** the async functions waiting for a response, oldest first *)
  inflight : list Pending;
  (** the labels passed to [console.error] *)
  console : list string
}.

Record World : Type := mkWorld {
  (** [Date.now()], in ms *)
  clock : Z;
  form : Form;
  regions : Regions;
  date_info : DateInfo;
  toast : Toast;
  (** the times at which the pending [setTimeout] callbacks of
      [showToast] are due, in the order they were set *)
  timeouts : list Z;
  tabs : Tabs;
  net : Net
}.

(** Field updates of the page state. *)
Definition with_clock (c : Z) (w : World) : World :=
  mkWorld c (form w) (regions w) (date_info w) (toast w) (timeouts w) (tabs w) (net w).
Definition with_form (f : Form) (w : World) : World :=
  mkWorld (clock w) f (regions w) (date_info w) (toast w) (timeouts w) (tabs w) (net w).
Definition with_regions (r : Regions) (w : World) : World :=
  mkWorld (clock w) (form w) r (date_info w) (toast w) (timeouts w) (tabs w) (net w).
Definition with_date_info (d : DateInfo) (w : World) : World :=
  mkWorld (clock w) (form w) (regions w) d (toast w) (timeouts w) (tabs w) (net w).
Definition with_toast (t : Toast) (w : World) : World :=
  mkWorld (clock w) (form w) (regions w) (date_info w) t (timeouts w) (tabs w) (net w).
Definition with_timeouts (l : list Z) (w : World) : World :=
  mkWorld (clock w) (form w) (regions w) (date_info w) (toast w) l (tabs w) (net w).
Definition with_tabs (t : Tabs) (w : World) : World :=
  mkWorld (clock w) (form w) (regions w) (date_info w) (toast w) (timeouts w) t (net w).
Definition with_net (n : Net) (w : World) : World :=
  mkWorld (clock w) (form w) (regions w) (date_info w) (toast w) (timeouts w) (tabs w) n.

(* ================================================================== *)
(** * Handler bodies: state and exceptions *)
(* ================================================================== *)

(** A statement of a handler either completes normally or throws; both
    ways it may have changed the page. *)
Inductive Completion (A : Type) : Type :=
| Normal (a : A)
| Thrown.
Arguments Normal {A} a.
Arguments Thrown {A}.

Definition M (A : Type) : Type := World -> Completion A * World.

Definition ret {A} (a : A) : M A := fun w => (Normal a, w).

Definition bind {A B} (c : M A) (k : A -> M B) : M B :=
  fun w =>
    match c w with
    | (Normal a, w') => k a w'
    | (Thrown, w') => (Thrown, w')
    end.

Definition throw {A} : M A := fun w => (Thrown, w).

(** [try { body } catch (error) { handler }] *)
Definition try_catch {A} (body handler : M A) : M A :=
  fun w =>
    match body w with
    | (Normal a, w') => (Normal a, w')
    | (Thrown, w') => handler w'
    end.

Definition gets {A} (f : World -> A) : M A := fun w => (Normal (f w), w).
Definition modify (f : World -> World) : M unit := fun w => (Normal tt, f w).

(** The page a handler leaves behind. *)
Definition exec {A} (c : M A) (w : World) : World := snd (c w).

Declare Scope handler_scope.
Delimit Scope handler_scope with handler.
Notation "x <- c ;; k" := (bind c (fun x => k))
  (at level 61, c at next level, right associativity) : handler_scope.
Notation "c ;; k" := (bind c (fun _ => k))
  (at level 61, right associativity) : handler_scope.
Notation "'try' body 'catch' handler" := (try_catch body handler)
  (at level 62, body at level 61, handler at level 61) : handler_scope.
Open Scope handler_scope.

(** ** The DOM and network operations the handlers use *)

(** [document.getElementById(id).checked], for the seven checkboxes. *)
Definition get_checked (t : Task) : M bool :=
  gets (fun w => flag t (checked (form w))).

Definition set_checked (t : Task) (b : bool) : M unit :=
  modify (fun w =>
    with_form (mkForm (date_value (form w)) (startDate_value (form w))
                      (endDate_value (form w)) (set_flag t b (checked (form w)))) w).

(** [document.getElementById(r).innerHTML = h] *)
Definition assign_innerHTML (r : Region) (h : string) : M unit :=
  modify (fun w => with_regions (set_innerHTML r h (regions w)) w).

(** [console.error(label, error)] *)
Definition console_error (label : string) : M unit :=
  modify (fun w =>
    with_net (mkNet (requests (net w)) (inflight (net w))
                    (console (net w) ++ [label])) w).

(** [await fetch(url, init)], up to the suspension: the request leaves and
    the calling async function [p] waits for it. *)
Definition fetch (p : Pending) (method url : string) (body : option FormData) : M unit :=
  modify (fun w =>
    with_net (mkNet (requests (net w) ++ [mkRequest method url body])
                    (inflight (net w) ++ [p])
                    (console (net w))) w).

(** The value of [await fetch(...)] once the request has settled: the
    response, or the rejection thrown at the [await]. *)
Definition awaited {A} (o : Outcome A) : M (bool * option A) :=
  match o with
  | NetworkError => throw
  | Response ok body => ret (ok, body)
  end.

(** [await response.json()] *)
Definition response_json {A} (response : bool * option A) : M A :=
  match snd response with
  | Some a => ret a
  | None => throw
  end.

Definition response_ok {A} (response : bool * option A) : bool := fst response.

(* ================================================================== *)
(** * Markup *)
(* ================================================================== *)

(** The script builds [innerHTML] from template literals.  [line n s] is
    one line of such a literal: the line break, [n] spaces of indentation
    and the text [s]. *)
Module Html.

Definition dq : string := String (ascii_of_nat 34) "".
Definition LF : string := String (ascii_of_nat 10) "".

Fixpoint spaces (n : nat) : string :=
  match n with
  | O => ""
  | S n' => " " ++ spaces n'
  end.

Definition line (n : nat) (s : string) : string := LF ++ spaces n ++ s.

(** [name="value"] *)
Definition attr (name value : string) : string := name ++ "=" ++ dq ++ value ++ dq.

(** [<tag class="c">] *)
Definition open_ (tag c : string) : string := "<" ++ tag ++ " " ++ attr "class" c ++ ">".

(** [array.join('')] *)
Definition join (l : list string) : string := fold_right String.append "" l.

(** [s2] occurs in [s1]. *)
Definition occurs_in (s2 s1 : string) : Prop :=
  exists before after, s1 = before ++ s2 ++ after.

End Html.

Import Html.

(* ================================================================== *)
(** * The script *)
(* ================================================================== *)

Section Script.
Context `{Host}.

(** [const API_BASE_URL = window.location.origin;] *)
Definition API_BASE_URL : string := origin.

(** ** updateDateInfo *)

(** [Math.floor(a / b)] and [Math.ceil(a / b)] for integers [a] and
    [b > 0].  The script divides doubles; here the operands are integers
    far below 2^53 and no quotient is within rounding distance of an
    integer it does not equal, so floor and ceiling of the double
    quotient are those of the exact one. *)
Definition Math_floor_div (a b : Z) : Z := a / b.
Definition Math_ceil_div (a b : Z) : Z := - ((- a) / b).

(** The string of an integer-valued Number. *)
Definition integer_text (z : Z) : string :=
  if z <? 0 then "-" ++ JSNumber.decimal (- z) else JSNumber.decimal z.

Definition updateDateInfo : M unit :=
  now <- gets clock ;;
  let dateStr := toLocaleDateString LongDate (Some now) in
  let startDate := JSDate.Date_jan1 (JSDate.getFullYear now) in
  let days := Math_floor_div (now - startDate) (24 * 60 * 60 * 1000) in
  let weekNumber := Math_ceil_div (days + JSDate.getDay startDate + 1) 7 in
  let monthName := toLocaleDateString MonthLong (Some now) in
  modify (with_date_info (mkDateInfo dateStr (integer_text weekNumber) monthName)).

(** ** clearForm *)

Definition clearForm : M unit :=
  set_checked Gym false ;;
  set_checked Dsa false ;;
  set_checked Ml false ;;
  set_checked Django false ;;
  set_checked Sql false ;;
  set_checked ProjectWork false ;;
  set_checked Aws false.

(** ** showToast *)

Definition set_toast (f : Toast -> Toast) : M unit :=
  modify (fun w => with_toast (f (toast w)) w).

(** The callback of [showToast]: [() => toast.classList.remove('show')]. *)
Definition hide_toast : M unit :=
  set_toast (fun t =>
    mkToast (toast_message t) (icon_className t) (background t)
            (ClassList.remove "show" (toast_classes t))).

(** [setTimeout(hide_toast, delay)]: the callback is due [delay] ms from
    now, after the ones already waiting. *)
Definition setTimeout (delay : Z) : M unit :=
  modify (fun w => with_timeouts (timeouts w ++ [clock w + delay]) w).

Definition showToast (message type : string) : M unit :=
  set_toast (fun t =>
    mkToast message (icon_className t) (background t) (toast_classes t)) ;;
  (if String.eqb type "success" then
     set_toast (fun t =>
       mkToast (toast_message t) "toast-icon fas fa-check-circle" "#48bb78"
               (toast_classes t))
   else if String.eqb type "error" then
     set_toast (fun t =>
       mkToast (toast_message t) "toast-icon fas fa-exclamation-circle" "#f56565"
               (toast_classes t))
   else
     set_toast (fun t =>
       mkToast (toast_message t) "toast-icon fas fa-info-circle" "#2d3748"
               (toast_classes t))) ;;
  set_toast (fun t =>
    mkToast (toast_message t) (icon_className t) (background t)
            (ClassList.add "show" (toast_classes t))) ;;
  setTimeout 3000.

(** ** switchTab *)

(** [a === b] on values that are strings or null. *)
Definition strict_eq (a b : option string) : bool :=
  match a, b with
  | Some x, Some y => String.eqb x y
  | None, None => true
  | _, _ => false
  end.

(** [`${tab}`] *)
Definition template_text (tab : option string) : string :=
  match tab with
  | Some s => s
  | None => "null"
  end.

Definition switch_btn (tab : option string) (btn : TabBtn) : TabBtn :=
  let btn := mkTabBtn (data_tab btn) (ClassList.remove "active" (btn_classes btn)) in
  if strict_eq (data_tab btn) tab
  then mkTabBtn (data_tab btn) (ClassList.add "active" (btn_classes btn))
  else btn.

Definition switch_panel (tab : option string) (content : TabPanel) : TabPanel :=
  let content :=
    mkTabPanel (panel_id content) (ClassList.remove "active" (panel_classes content)) in
  if String.eqb (panel_id content) (template_text tab ++ "Tab")
  then mkTabPanel (panel_id content) (ClassList.add "active" (panel_classes content))
  else content.

Definition set_tabs (f : Tabs -> Tabs) : M unit :=
  modify (fun w => with_tabs (f (tabs w)) w).

Definition switchTab (tab : option string) : M unit :=
  current <- gets (fun w => currentTab (tabs w)) ;;
  if strict_eq current tab then ret tt
  else
    set_tabs (fun t =>
      mkTabs (map (switch_btn tab) (tab_btns t)) (tab_panels t) (currentTab t)) ;;
    set_tabs (fun t =>
      mkTabs (tab_btns t) (map (switch_panel tab) (tab_panels t)) (currentTab t)) ;;
    set_tabs (fun t => mkTabs (tab_btns t) (tab_panels t) tab).
End Script.

Section Reads.
Context `{Host}.

(** ** loadStats *)

(** [x || 0] for an optional numeric field. *)
Definition or_zero (x : option float) : float :=
  match x with
  | Some v => if JSNumber.truthy v then v else zero
  | None => zero
  end.

Definition stat_item (value label : string) : string :=
  line 16 (open_ "div" "stat-item") ++
  line 20 (open_ "span" "stat-value" ++ value ++ "</span>") ++
  line 20 (open_ "span" "stat-label" ++ label ++ "</span>") ++
  line 16 "</div>".

Definition statsHtml (data : Stats) : string :=
  stat_item (JSNumber.toString (total_days_tracked data)) "Days Tracked" ++
  stat_item (JSNumber.toString (or_zero (total_weeks_reported data))) "Weeks" ++
  stat_item (JSNumber.toString (or_zero (total_months_reported data))) "Months" ++
  line 12 "".

(** The call, up to its first [await]. *)
Definition loadStats : M unit :=
  fetch PStats "GET" (API_BASE_URL ++ "/api/stats/") None.

(** The rest of the body, run when the request has settled. *)
Definition loadStats_resumed (o : Outcome Stats) : M unit :=
  try (
    response <- awaited o ;;
    if response_ok response then
      data <- response_json response ;;
      assign_innerHTML stats (statsHtml data)
    else ret tt
  ) catch (
    console_error "Error loading stats:" ;;
    assign_innerHTML stats "<p>Loading...</p>"
  ).

(** ** loadTodayStatus *)

Definition status_item (title : string) (done : bool) : string :=
  line 16 (open_ "div" ("status-item " ++ (if done then "completed" else "pending"))) ++
  line 20 ("<h4>" ++ title ++ "</h4>") ++
  line 20 ("<p>" ++ (if done then "✓ Completed" else "✗ Not checked") ++ "</p>") ++
  line 16 "</div>".

Definition statusHtml (data : DailyEntry) : string :=
  status_item "GYM" (gym (entry_flags data)) ++
  status_item "DSA" (dsa (entry_flags data)) ++
  status_item "ML" (ml (entry_flags data)) ++
  status_item "Django" (django (entry_flags data)) ++
  status_item "SQL" (sql (entry_flags data)) ++
  status_item "Project" (project_work (entry_flags data)) ++
  status_item "AWS" (aws (entry_flags data)) ++
  line 12 "".

Definition loadTodayStatus : M unit :=
  fetch PToday "GET" (API_BASE_URL ++ "/api/today") None.

Definition loadTodayStatus_resumed (o : Outcome DailyEntry) : M unit :=
  try (
    response <- awaited o ;;
    if response_ok response then
      data <- response_json response ;;
      assign_innerHTML todayStatus (statusHtml data) ;;
      if exists_ data then
        set_checked Gym (gym (entry_flags data)) ;;
        set_checked Dsa (dsa (entry_flags data)) ;;
        set_checked Ml (ml (entry_flags data)) ;;
        set_checked Django (django (entry_flags data)) ;;
        set_checked Sql (sql (entry_flags data)) ;;
        set_checked ProjectWork (project_work (entry_flags data)) ;;
        set_checked Aws (aws (entry_flags data))
      else
        clearForm
    else ret tt
  ) catch (
    console_error "Error loading today status:"
  ).

(** ** loadHistory *)

(** A string is truthy when it is not empty. *)
Definition nonempty (s : string) : bool := negb (String.eqb s "").

Definition history_url (startDate endDate : string) : string :=
  let url := API_BASE_URL ++ "/api/daily/" in
  if nonempty startDate && nonempty endDate
  then url ++ "?start_date=" ++ startDate ++ "&end_date=" ++ endDate
  else url.

Definition completedTasks (item : DailyEntry) : list string :=
  (if gym (entry_flags item) then ["GYM"] else []) ++
  (if dsa (entry_flags item) then ["DSA"] else []) ++
  (if ml (entry_flags item) then ["ML"] else []) ++
  (if django (entry_flags item) then ["Django"] else []) ++
  (if sql (entry_flags item) then ["SQL"] else []) ++
  (if project_work (entry_flags item) then ["Project"] else []) ++
  (if aws (entry_flags item) then ["AWS"] else []).

Definition tasksHtml (item : DailyEntry) : string :=
  if (0 <? length (completedTasks item))%nat
  then join (map (fun task => open_ "span" "task-badge completed" ++ task ++ "</span>")
                 (completedTasks item))
  else open_ "span" "task-badge" ++ "No tasks completed</span>".

Definition history_item (item : DailyEntry) : string :=
  let date := toLocaleDateString ShortWeekdayDate (Date_parse (entry_date item)) in
  line 20 (open_ "div" "history-item") ++
  line 24 (open_ "div" "history-date" ++ date ++ "</div>") ++
  line 24 (open_ "div" "history-tasks" ++ tasksHtml item ++ "</div>") ++
  line 20 "</div>" ++
  line 16 "".

(** [let html = ''; items.forEach(item => { html += render(item) })] *)
Definition forEach_append {A} (render : A -> string) (items : list A) : string :=
  fold_left (fun html item => html ++ render item) items "".

Definition loadHistory : M unit :=
  startDate <- gets (fun w => startDate_value (form w)) ;;
  endDate <- gets (fun w => endDate_value (form w)) ;;
  fetch PHistory "GET" (history_url startDate endDate) None.

Definition loadHistory_resumed (o : Outcome (list DailyEntry)) : M unit :=
  try (
    response <- awaited o ;;
    if response_ok response then
      history <- response_json response ;;
      if (length history =? 0)%nat then
        assign_innerHTML historyList "<p>No history found.</p>"
      else
        assign_innerHTML historyList (forEach_append history_item history)
    else ret tt
  ) catch (
    console_error "Error loading history:" ;;
    assign_innerHTML historyList "<p>Error loading history</p>"
  ).

(** ** loadWeeklyReports and loadMonthlyReports *)

(** One labelled progress bar: the label carries [p.toFixed(1)], the
    width of the fill carries [Math.min(p, 100)]. *)
Definition progress_row (label : string) (p : float) : string :=
  "<div><small>" ++ label ++ ": " ++ JSNumber.toFixed 1 p ++ "%</small>" ++
  open_ "div" "progress-bar" ++
  "<div " ++ attr "class" "progress-fill" ++ " " ++
  attr "style" ("width: " ++ JSNumber.toString (JSNumber.Math_min p 100%float) ++ "%") ++
  "></div></div></div>".

Definition weekly_item (report : WeeklyReport) : string :=
  let startDate := toLocaleDateString MonthDay (Date_parse (start_date report)) in
  let endDate := toLocaleDateString MonthDay (Date_parse (end_date report)) in
  line 20 (open_ "div" "report-item") ++
  line 24 (open_ "div" "report-header") ++
  line 28 ("<h4>Week " ++ JSNumber.toString (week_number report) ++ ", " ++
           JSNumber.toString (wr_year report) ++
           " (" ++ startDate ++ " - " ++ endDate ++ ")</h4>") ++
  line 28 (open_ "div" "report-score" ++
           JSNumber.toFixed 1 (total_score report) ++ "%</div>") ++
  line 24 "</div>" ++
  line 24 (open_ "div" "progress-bars") ++
  line 28 (progress_row "GYM" (gym_percentage report)) ++
  line 28 (progress_row "DSA" (dsa_percentage report)) ++
  line 28 (progress_row "ML" (ml_percentage report)) ++
  line 28 (progress_row "Django" (django_percentage report)) ++
  line 28 (progress_row "SQL" (sql_percentage report)) ++
  line 28 (progress_row "Project" (project_percentage report)) ++
  line 28 (progress_row "AWS" (aws_percentage report)) ++
  line 24 "</div>" ++
  line 20 "</div>" ++
  line 16 "".

Definition loadWeeklyReports : M unit :=
  fetch PWeekly "GET" (API_BASE_URL ++ "/api/weekly/") None.

Definition loadWeeklyReports_resumed (o : Outcome (list WeeklyReport)) : M unit :=
  try (
    response <- awaited o ;;
    if response_ok response then
      reports <- response_json response ;;
      if (length reports =? 0)%nat then
        assign_innerHTML weeklyReports "<p>No weekly reports yet.</p>"
      else
        assign_innerHTML weeklyReports (forEach_append weekly_item reports)
    else ret tt
  ) catch (
    console_error "Error loading weekly reports:" ;;
    assign_innerHTML weeklyReports "<p>Loading...</p>"
  ).

Definition monthly_item (report : MonthlyReport) : string :=
  let monthName :=
    toLocaleDateString MonthLong
      (Date_year_month (mr_year report) (PrimFloat.sub (month report) 1%float)) in
  line 20 (open_ "div" "report-item") ++
  line 24 (open_ "div" "report-header") ++
  line 28 ("<h4>" ++ monthName ++ " " ++ JSNumber.toString (mr_year report) ++ "</h4>") ++
  line 28 (open_ "div" "report-score" ++
           JSNumber.toString (mr_total_days_tracked report) ++ " days</div>") ++
  line 24 "</div>" ++
  line 24 (open_ "div" "progress-bars") ++
  line 28 (progress_row "GYM" (avg_gym report)) ++
  line 28 (progress_row "DSA" (avg_dsa report)) ++
  line 28 (progress_row "ML" (avg_ml report)) ++
  line 28 (progress_row "Django" (avg_django report)) ++
  line 28 (progress_row "SQL" (avg_sql report)) ++
  line 28 (progress_row "Project" (avg_project report)) ++
  line 28 (progress_row "AWS" (avg_aws report)) ++
  line 24 "</div>" ++
  line 20 "</div>" ++
  line 16 "".

Definition loadMonthlyReports : M unit :=
  fetch PMonthly "GET" (API_BASE_URL ++ "/api/monthly/") None.

Definition loadMonthlyReports_resumed (o : Outcome (list MonthlyReport)) : M unit :=
  try (
    response <- awaited o ;;
    if response_ok response then
      reports <- response_json response ;;
      if (length reports =? 0)%nat then
        assign_innerHTML monthlyReports "<p>No monthly reports yet.</p>"
      else
        assign_innerHTML monthlyReports (forEach_append monthly_item reports)
    else ret tt
  ) catch (
    console_error "Error loading monthly reports:" ;;
    assign_innerHTML monthlyReports "<p>Loading...</p>"
  ).

(** ** The submit handler of #dailyForm *)

(** [`${error.detail}`]: an absent field reads undefined. *)
Definition detail_text (error : ErrorBody) : string :=
  match detail error with
  | Some s => s
  | None => "undefined"
  end.

(** From [e.preventDefault()] to the [await fetch]. *)
Definition dailyForm_submit : M unit :=
  d <- gets (fun w => date_value (form w)) ;;
  g <- get_checked Gym ;;
  ds <- get_checked Dsa ;;
  m <- get_checked Ml ;;
  dj <- get_checked Django ;;
  s <- get_checked Sql ;;
  p <- get_checked ProjectWork ;;
  a <- get_checked Aws ;;
  let formData := mkFormData d (mkFlags g ds m dj s p a) in
  fetch PSubmit "POST" (API_BASE_URL ++ "/api/daily/") (Some formData).

Definition dailyForm_submit_resumed (o : Outcome ErrorBody) : M unit :=
  try (
    response <- awaited o ;;
    if response_ok response then
      showToast "Checklist saved successfully!" "success" ;;
      clearForm ;;
      loadTodayStatus ;;
      loadStats ;;
      loadWeeklyReports ;;
      loadMonthlyReports ;;
      loadHistory
    else
      error <- response_json response ;;
      showToast ("Error: " ++ detail_text error) "error"
  ) catch (
    showToast "Network error. Please check if server is running." "error"
  ).

(** ** The auto-refresh callback of [setInterval(_, 30000)] *)

Definition auto_refresh : M unit :=
  loadTodayStatus ;;
  loadStats.
End Reads.

(* ================================================================== *)
(** * The event loop *)
(* ================================================================== *)

(** What can happen to the page: the user acts, a timer fires, or a
    request settles.  Handlers run one at a time, to completion or to
    their next [await]. *)
Inductive Event : Type :=
| Toggle (t : Task)                     (* the user clicks a checkbox *)
| EditDate (v : string)                 (* the user edits #date *)
| EditStartDate (v : string)            (* ... #startDate *)
| EditEndDate (v : string)              (* ... #endDate *)
| SubmitForm                            (* submit on #dailyForm *)
| ClickLoadHistory                      (* click on #loadHistory *)
| ClickTab (n : nat)                    (* click on the n-th .tab-btn *)
| Interval                              (* the setInterval callback is due *)
| Elapse (dt : Z)                       (* dt ms pass *)
| Settle (p : Pending) (o : Outcome (Payload p)).   (* a request settles *)

Section Loop.
Context `{Host}.

(** The continuation of each async function. *)
Definition resume (p : Pending) : Outcome (Payload p) -> M unit :=
  match p with
  | PSubmit => dailyForm_submit_resumed
  | PStats => loadStats_resumed
  | PToday => loadTodayStatus_resumed
  | PWeekly => loadWeeklyReports_resumed
  | PMonthly => loadMonthlyReports_resumed
  | PHistory => loadHistory_resumed
  end.

Definition Pending_eqb (a b : Pending) : bool :=
  match a, b with
  | PSubmit, PSubmit | PStats, PStats | PToday, PToday
  | PWeekly, PWeekly | PMonthly, PMonthly | PHistory, PHistory => true
  | _, _ => false
  end.

(** Take the oldest waiting call of [p] off the list; [None] when no
    such call waits. *)
Fixpoint take (p : Pending) (l : list Pending) : option (list Pending) :=
  match l with
  | [] => None
  | q :: l' =>
      if Pending_eqb p q then Some l'
      else option_map (cons q) (take p l')
  end.

(** Time passes up to [t]: the [setTimeout] callbacks that are due run,
    oldest first, and leave the list. *)
Definition advance (t : Z) (w : World) : World :=
  let due := filter (fun d => d <=? t) (timeouts w) in
  let later := filter (fun d => negb (d <=? t)) (timeouts w) in
  let w' := fold_left (fun w _ => exec hide_toast w) due w in
  with_clock (Z.max (clock w) t) (with_timeouts later w').

Definition edit_form (f : Form -> Form) (w : World) : World :=
  with_form (f (form w)) w.

Definition dispatch (e : Event) (w : World) : World :=
  match e with
  | Toggle t =>
      exec (b <- get_checked t ;; set_checked t (negb b)) w
  | EditDate v =>
      edit_form (fun f => mkForm v (startDate_value f) (endDate_value f) (checked f)) w
  | EditStartDate v =>
      edit_form (fun f => mkForm (date_value f) v (endDate_value f) (checked f)) w
  | EditEndDate v =>
      edit_form (fun f => mkForm (date_value f) (startDate_value f) v (checked f)) w
  | SubmitForm => exec dailyForm_submit w
  | ClickLoadHistory => exec loadHistory w
  | ClickTab n =>
      match nth_error (tab_btns (tabs w)) n with
      | Some btn => exec (switchTab (data_tab btn)) w
      | None => w
      end
  | Interval => exec auto_refresh w
  | Elapse dt => if 0 <=? dt then advance (clock w + dt) w else w
  | Settle p o =>
      match take p (inflight (net w)) with
      | Some rest =>
          exec (resume p o)
               (with_net (mkNet (requests (net w)) rest (console (net w))) w)
      | None => w
      end
  end.

Definition run (es : list Event) (w : World) : World :=
  fold_left (fun w e => dispatch e w) es w.
End Loop.

(* ================================================================== *)
(** * Observations *)
(* ================================================================== *)

(** The toast is visible while its class list holds [show]. *)
Definition toast_visible (w : World) : bool :=
  ClassList.contains "show" (toast_classes (toast w)).

Definition btn_active (b : TabBtn) : bool := ClassList.contains "active" (btn_classes b).
Definition panel_active (p : TabPanel) : bool := ClassList.contains "active" (panel_classes p).

Definition active_btns (w : World) : list TabBtn := filter btn_active (tab_btns (tabs w)).
Definition active_panels (w : World) : list TabPanel := filter panel_active (tab_panels (tabs w)).

(** The three views of the tab switcher. *)
Definition views : list string := ["weekly"; "monthly"; "history"].

(** The button that selects view [tab], and the panel that shows it. *)
Definition names_tab (tab : string) (b : TabBtn) : bool :=
  strict_eq (data_tab b) (Some tab).
Definition shows_tab (tab : string) (p : TabPanel) : bool :=
  String.eqb (panel_id p) (tab ++ "Tab").

(** The page has one selector button and one content panel per view. *)
Definition one_selector_per_view (t : Tabs) : Prop :=
  forall tab, In tab views ->
    length (filter (names_tab tab) (tab_btns t)) = 1%nat /\
    length (filter (shows_tab tab) (tab_panels t)) = 1%nat.

(** The label the reports print for each task, and the percentage fields
    of the two report shapes. *)
Definition task_label (t : Task) : string :=
  match t with
  | Gym => "GYM"
  | Dsa => "DSA"
  | Ml => "ML"
  | Django => "Django"
  | Sql => "SQL"
  | ProjectWork => "Project"
  | Aws => "AWS"
  end.

Definition weekly_percentage (t : Task) (r : WeeklyReport) : float :=
  match t with
  | Gym => gym_percentage r
  | Dsa => dsa_percentage r
  | Ml => ml_percentage r
  | Django => django_percentage r
  | Sql => sql_percentage r
  | ProjectWork => project_percentage r
  | Aws => aws_percentage r
  end.

Definition monthly_average (t : Task) (r : MonthlyReport) : float :=
  match t with
  | Gym => avg_gym r
  | Dsa => avg_dsa r
  | Ml => avg_ml r
  | Django => avg_django r
  | Sql => avg_sql r
  | ProjectWork => avg_project r
  | Aws => avg_aws r
  end.

(** A progress bar as the spec describes it: a label text [shown],
    followed by a percent sign, over a bar whose fill is [width] percent
    wide. *)
Definition bar_markup (label shown width : string) : string :=
  "<div><small>" ++ label ++ ": " ++ shown ++ "%</small>" ++
  open_ "div" "progress-bar" ++
  "<div " ++ attr "class" "progress-fill" ++ " " ++
  attr "style" ("width: " ++ width ++ "%") ++
  "></div></div></div>".

(** A text that ends with a decimal point and one more character. *)
Definition one_decimal (s : string) : Prop :=
  exists a d, s = a ++ "." ++ d /\ String.length d = 1%nat.

(** The state of the checkbox of task [t]. *)
Definition checkbox (t : Task) (w : World) : bool := flag t (checked (form w)).

Definition GET `{Host} (path : string) : Request :=
  mkRequest "GET" (API_BASE_URL ++ path) None.

(** The five read operations in the order the submit handler starts them,
    and the requests they send. *)
Definition reload_all `{Host} : M unit :=
  loadTodayStatus ;; loadStats ;; loadWeeklyReports ;; loadMonthlyReports ;; loadHistory.

Definition read_requests `{Host} (w : World) : list Request :=
  [ GET "/api/today"; GET "/api/stats/"; GET "/api/weekly/"; GET "/api/monthly/";
    mkRequest "GET" (history_url (startDate_value (form w)) (endDate_value (form w))) None ].

Definition reads_started : list Pending := [PToday; PStats; PWeekly; PMonthly; PHistory].

(** The messages a region shows in place of data: the loading
    placeholder, the empty states and the error state. *)
Definition placeholder_messages : list string :=
  [ "<p>Loading...</p>";
    "<p>No history found.</p>";
    "<p>No weekly reports yet.</p>";
    "<p>No monthly reports yet.</p>";
    "<p>Error loading history</p>" ].

Definition shows_placeholder (r : Region) (w : World) : Prop :=
  In (innerHTML r (regions w)) placeholder_messages.

(** The region each read operation renders into. *)
Definition region_of (p : Pending) : option Region :=
  match p with
  | PSubmit => None
  | PStats => Some stats
  | PToday => Some todayStatus
  | PWeekly => Some weeklyReports
  | PMonthly => Some monthlyReports
  | PHistory => Some historyList
  end.

(** A request failed: it threw, or the response is not 2xx. *)
Definition failed {A} (o : Outcome A) : Prop :=
  match o with
  | NetworkError => True
  | Response ok _ => ok = false
  end.

(** ** A page to run the script on *)

(** Modelled from the spec: the page template (index.html) is not among
    the sources.  The spec names three views, [weekly], [monthly] and
    [history], with [weekly] active by default, seven unchecked
    checkboxes, five regions and one hidden toast. *)
Definition page : World :=
  mkWorld 0
    (mkForm "" "" "" unchecked)
    (mkRegions "" "" "" "" "")
    (mkDateInfo "" "" "")
    (mkToast "" "toast-icon" "" ["toast"])
    []
    (mkTabs
       [ mkTabBtn (Some "weekly") ["tab-btn"; "active"];
         mkTabBtn (Some "monthly") ["tab-btn"];
         mkTabBtn (Some "history") ["tab-btn"] ]
       [ mkTabPanel "weeklyTab" ["tab-content"; "active"];
         mkTabPanel "monthlyTab" ["tab-content"];
         mkTabPanel "historyTab" ["tab-content"] ]
       (Some "weekly"))
    (mkNet [] [] []).

(** A weekly report with 150 percent of gym. *)
Definition report_150 : WeeklyReport :=
  mkWeeklyReport 11 2024 "2024-03-11" "2024-03-17" 62.5 150 100 50 0 33.5 85.75 20.

(** A host to evaluate on: UTC, and no date formatting. *)
Definition utc_host : Host := {|
  origin := "https://tracker.example";
  LocalTZA := fun _ _ => 0;
  LocalTZA_bounded := fun _ _ => conj eq_refl eq_refl;
  Date_parse := fun _ => None;
  Date_year_month := fun _ _ => None;
  toLocaleDateString := fun _ _ => "Invalid Date"
|}.

(** The icon class and background [showToast] gives a severity. *)
Definition toast_style (type : string) : string * string :=
  if String.eqb type "success" then ("toast-icon fas fa-check-circle", "#48bb78")
  else if String.eqb type "error" then ("toast-icon fas fa-exclamation-circle", "#f56565")
  else ("toast-icon fas fa-info-circle", "#2d3748").

(** The texts of the two notifications of the submit handler. *)
Definition saved_message : string := "Checklist saved successfully!".
Definition network_error_message : string :=
  "Network error. Please check if server is running.".

(* ================================================================== *)
(** * The rest of the script: calendar dates and page load *)
(* ================================================================== *)

(** The month and date arithmetic of ECMA-262 (Month Number, Date Number,
    MakeDay, MakeDate, TimeClip), which [formatDate] and [setDate] use. *)
Module JSCalendar.

(** DaysInYear *)
Definition DaysInYear (y : Z) : Z :=
  if (y mod 4 =? 0) && (negb (y mod 100 =? 0) || (y mod 400 =? 0)) then 366 else 365.

(** InLeapYear, as the number 0 or 1 *)
Definition leap (y : Z) : Z := DaysInYear y - 365.

Definition DayWithinYear (t : Z) : Z :=
  JSDate.Day t - JSDate.DayFromYear (JSDate.YearFromTime t).

Definition TimeWithinDay (t : Z) : Z := t mod JSDate.msPerDay.

(** The day of the year on which month [m] (0 to 11) starts. *)
Definition month_start (m l : Z) : Z :=
  match m with
  | 0 => 0
  | 1 => 31
  | 2 => 59 + l
  | 3 => 90 + l
  | 4 => 120 + l
  | 5 => 151 + l
  | 6 => 181 + l
  | 7 => 212 + l
  | 8 => 243 + l
  | 9 => 273 + l
  | 10 => 304 + l
  | _ => 334 + l
  end.

(** MonthFromTime: 0 is January. *)
Definition MonthFromTime (t : Z) : Z :=
  let d := DayWithinYear t in
  let l := leap (JSDate.YearFromTime t) in
  if d <? 31 then 0
  else if d <? 59 + l then 1
  else if d <? 90 + l then 2
  else if d <? 120 + l then 3
  else if d <? 151 + l then 4
  else if d <? 181 + l then 5
  else if d <? 212 + l then 6
  else if d <? 243 + l then 7
  else if d <? 273 + l then 8
  else if d <? 304 + l then 9
  else if d <? 334 + l then 10
  else 11.

(** DateFromTime: the day of the month, from 1. *)
Definition DateFromTime (t : Z) : Z :=
  let d := DayWithinYear t in
  let l := leap (JSDate.YearFromTime t) in
  match MonthFromTime t with
  | 0 => d + 1
  | 1 => d - 30
  | 2 => d - 58 - l
  | 3 => d - 89 - l
  | 4 => d - 119 - l
  | 5 => d - 150 - l
  | 6 => d - 180 - l
  | 7 => d - 211 - l
  | 8 => d - 242 - l
  | 9 => d - 272 - l
  | 10 => d - 303 - l
  | _ => d - 333 - l
  end.

(** MakeDay(year, month, date): the day number of the first of the month,
    plus [date - 1]; [month] may lie outside 0 to 11 and [date] outside
    the month. *)
Definition MakeDay (year month date : Z) : Z :=
  let ym := year + month / 12 in
  let mn := month mod 12 in
  JSDate.DayFromYear ym + month_start mn (leap ym) + date - 1.

Definition MakeDate (day time : Z) : Z := day * JSDate.msPerDay + time.

(** TimeClip: a Date holds a time value of at most 8.64e15 ms in
    magnitude, or NaN ([None]). *)
Definition TimeClip (t : Z) : option Z :=
  if Z.abs t <=? 8640000000000000 then Some t else None.

Section Local.
Context `{Host}.

(** [d.getMonth()] and [d.getDate()] of a Date with time value [t]. *)
Definition getMonth (t : Z) : Z := MonthFromTime (JSDate.LocalTime t).
Definition getDate (t : Z) : Z := DateFromTime (JSDate.LocalTime t).

(** [d.setDate(date)]: the new time value of the Date. *)
Definition setDate (t : Z) (date : Z) : option Z :=
  let lt := JSDate.LocalTime t in
  let newDate :=
    MakeDate (MakeDay (JSDate.YearFromTime lt) (MonthFromTime lt) date)
             (TimeWithinDay lt) in
  TimeClip (JSDate.UTC newDate).
End Local.

End JSCalendar.

(** [s.padStart(targetLength, padString)] *)
Definition padStart (targetLength : nat) (padString : string) (s : string) : string :=
  if (targetLength <=? String.length s)%nat then s
  else if String.eqb padString "" then s
  else
    let fillLen := (targetLength - String.length s)%nat in
    substring 0 fillLen (String.concat "" (repeat padString fillLen)) ++ s.

Section PageLoad.
Context `{Host}.

(** ** formatDate *)

(** The argument is the time value of the Date, [None] for an invalid
    Date, whose getters return NaN. *)
Definition formatDate (date : option Z) : string :=
  match date with
  | Some t =>
      let year := JSDate.getFullYear t in
      let month := padStart 2 "0" (integer_text (JSCalendar.getMonth t + 1)) in
      let day := padStart 2 "0" (integer_text (JSCalendar.getDate t)) in
      integer_text year ++ "-" ++ month ++ "-" ++ day
  | None =>
      "NaN" ++ "-" ++ padStart 2 "0" "NaN" ++ "-" ++ padStart 2 "0" "NaN"
  end.

(** ** The DOMContentLoaded handler *)

(** The document: the page state and the [max] attribute of #date, which
    the handler sets and nothing in the script reads. *)
Record Document : Type := mkDocument {
  doc_page : World;
  date_max : string
}.

(** [document.getElementById(id).value = v] for the three date inputs. *)
Definition set_date_value (v : string) : M unit :=
  modify (fun w =>
    with_form (mkForm v (startDate_value (form w)) (endDate_value (form w))
                      (checked (form w))) w).
Definition set_startDate_value (v : string) : M unit :=
  modify (fun w =>
    with_form (mkForm (date_value (form w)) v (endDate_value (form w))
                      (checked (form w))) w).
Definition set_endDate_value (v : string) : M unit :=
  modify (fun w =>
    with_form (mkForm (date_value (form w)) (startDate_value (form w)) v
                      (checked (form w))) w).

(** [const weekAgo = new Date(); weekAgo.setDate(weekAgo.getDate() - 7);]
    The handler runs to completion at one reading [now] of the clock. *)
Definition weekAgo (now : Z) : option Z :=
  JSCalendar.setDate now (JSCalendar.getDate now - 7).

(** The last statement of the handler, [setupEventListeners()], registers
    the listeners whose bodies the event loop runs. *)
Definition DOMContentLoaded (w : World) : Document :=
  let today := Some (clock w) in
  let todayFormatted := formatDate today in
  let body :=
    set_date_value todayFormatted ;;
    set_startDate_value (formatDate (weekAgo (clock w))) ;;
    set_endDate_value todayFormatted ;;
    updateDateInfo ;;
    loadStats ;;
    loadTodayStatus ;;
    loadWeeklyReports ;;
    loadMonthlyReports ;;
    loadHistory in
  mkDocument (exec body w) todayFormatted.
End PageLoad.

(** ** Uniform descriptions of the renderers *)

(** The seven tasks in the order every renderer lists them. *)
Definition all_tasks : list Task := [Gym; Dsa; Ml; Django; Sql; ProjectWork; Aws].

(** The empty-state message of each list region. *)
Definition empty_state (r : Region) : string :=
  match r with
  | historyList => "<p>No history found.</p>"
  | weeklyReports => "<p>No weekly reports yet.</p>"
  | monthlyReports => "<p>No monthly reports yet.</p>"
  | _ => ""
  end.

(** What a list region shows for a list of items. *)
Definition list_markup {A} (r : Region) (render : A -> string) (items : list A) : string :=
  match items with
  | [] => empty_state r
  | _ :: _ => join (map render items)
  end.

(** The badge of a completed task in the history, and the badge of a day
    without any. *)
Definition task_badge (label : string) : string :=
  open_ "span" "task-badge completed" ++ label ++ "</span>".
Definition no_tasks_badge : string :=
  open_ "span" "task-badge" ++ "No tasks completed</span>".

(** [String(n).padStart(2, '0')] *)
Definition two_digits (n : Z) : string := padStart 2 "0" (integer_text n).

(** The integers from [lo] on, [len] of them. *)
Definition Z_range (lo : Z) (len : nat) : list Z :=
  map (fun i => lo + Z.of_nat i) (seq 0 len).

(** ** Invariants of the page *)

(** Every selector button names one of the three views. *)
Definition selectors_name_views (t : Tabs) : Prop :=
  forall b, In b (tab_btns t) -> exists v, In v views /\ data_tab b = Some v.

(** The current tab is a view, and the active class sits on exactly the
    buttons and panels of that view. *)
Definition tabs_exclusive (t : Tabs) : Prop :=
  exists v, In v views /\ currentTab t = Some v /\
    (forall b, In b (tab_btns t) -> btn_active b = names_tab v b) /\
    (forall p, In p (tab_panels t) -> panel_active p = shows_tab v p).

Definition tabs_invariant (t : Tabs) : Prop :=
  selectors_name_views t /\ one_selector_per_view t /\ tabs_exclusive t.

(** Every pending hide is due within three seconds, and a visible toast
    has one pending. *)
Definition toast_will_hide (w : World) : Prop :=
  (forall d, In d (timeouts w) -> d <= clock w + 3000) /\
  (toast_visible w = true -> timeouts w <> []).

(** The request of the submit handler for a form. *)
Definition POST_daily `{Host} (f : Form) : Request :=
  mkRequest "POST" (API_BASE_URL ++ "/api/daily/")
            (Some (mkFormData (date_value f) (checked f))).

(* ================================================================== *)
(** * Properties *)
(* ================================================================== *)

(** Unfold the monad and the DOM primitives down to functions on [World]. *)
Ltac unfold_M :=
  unfold exec, try_catch, bind, ret, throw, gets, modify, awaited,
         response_json, response_ok, set_checked, get_checked,
         assign_innerHTML, console_error, fetch, set_toast, setTimeout,
         set_tabs in *.

(** ** The runtime on known values *)

Set Warnings "-inexact-float".

Example toString_samples :
  map JSNumber.toString [100; 0.1; 99.95; 0.1 + 0.2; 1e21; 1.5e-7; -2.5]%float
  = ["100"; "0.1"; "99.95"; "0.30000000000000004"; "1e+21"; "1.5e-7"; "-2.5"].
Proof. vm_compute. reflexivity. Qed.

Example toFixed_samples :
  map (JSNumber.toFixed 1) [150; 12.25; 0.05; 1.45; 99.95; -0.01; 0; 1e21]%float
  = ["150.0"; "12.3"; "0.1"; "1.4"; "100.0"; "-0.0"; "0.0"; "1e+21"].
Proof. vm_compute. reflexivity. Qed.

Set Warnings "+inexact-float".

Example YearFromTime_samples :
  map JSDate.YearFromTime [0; -1; 951782400000; 1710504000000; 4102444799999]
  = [1970; 1969; 2000; 2024; 2099].
Proof. reflexivity. Qed.

Example WeekDay_samples :
  map JSDate.WeekDay [0; 1704067200000; 1710504000000] = [4; 1; 5].
Proof. reflexivity. Qed.

(** ** Class lists *)

Lemma contains_remove (c : string) (l : list string) :
  ClassList.contains c (ClassList.remove c l) = false.
Proof.
  unfold ClassList.contains, ClassList.remove.
  induction l as [|x l IH]; simpl; [reflexivity|].
  destruct (String.eqb c x) eqn:E; simpl; [exact IH|].
  rewrite E. exact IH.
Qed.

Lemma contains_app (c : string) (l1 l2 : list string) :
  ClassList.contains c (l1 ++ l2)%list
  = ClassList.contains c l1 || ClassList.contains c l2.
Proof. unfold ClassList.contains. apply existsb_app. Qed.

Lemma contains_add (c : string) (l : list string) :
  ClassList.contains c (ClassList.add c l) = true.
Proof.
  unfold ClassList.add.
  destruct (ClassList.contains c l) eqn:E; [exact E|].
  rewrite contains_app, E. simpl.
  unfold ClassList.contains. simpl. now rewrite String.eqb_refl.
Qed.

Lemma remove_remove (c : string) (l : list string) :
  ClassList.remove c (ClassList.remove c l) = ClassList.remove c l.
Proof.
  unfold ClassList.remove.
  induction l as [|x l IH]; simpl; [reflexivity|].
  destruct (String.eqb c x) eqn:E; simpl; [exact IH|].
  rewrite E. simpl. now rewrite IH.
Qed.

Section HandlerFacts.
Context `{Host}.

(** ** What each synchronous handler does to the page *)

Lemma exec_clearForm (w : World) :
  exec clearForm w
  = with_form (mkForm (date_value (form w)) (startDate_value (form w))
                      (endDate_value (form w)) unchecked) w.
Proof. reflexivity. Qed.

Lemma exec_showToast (message type : string) (w : World) :
  exec (showToast message type) w
  = with_timeouts (timeouts w ++ [clock w + 3000])
      (with_toast (mkToast message (fst (toast_style type)) (snd (toast_style type))
                           (ClassList.add "show" (toast_classes (toast w)))) w).
Proof.
  unfold showToast, toast_style. unfold_M.
  destruct (String.eqb type "success"); [reflexivity|].
  destruct (String.eqb type "error"); reflexivity.
Qed.

Lemma exec_hide_toast (w : World) :
  exec hide_toast w
  = with_toast (mkToast (toast_message (toast w)) (icon_className (toast w))
                        (background (toast w))
                        (ClassList.remove "show" (toast_classes (toast w)))) w.
Proof. reflexivity. Qed.

(** The five reads one after the other: five requests leave and nothing
    else changes. *)
Lemma exec_reload_all (w : World) :
  exec reload_all w
  = with_net (mkNet (requests (net w) ++ read_requests w)
                    (inflight (net w) ++ reads_started)
                    (console (net w))) w.
Proof.
  unfold reload_all, loadTodayStatus, loadStats, loadWeeklyReports,
    loadMonthlyReports, loadHistory, read_requests, reads_started, GET.
  unfold_M. cbn -[String.append history_url].
  unfold with_net. cbn -[String.append history_url].
  repeat rewrite <- app_assoc. reflexivity.
Qed.
End HandlerFacts.

(** ** Substrings *)

Lemma append_assoc (a b c : string) : (a ++ b) ++ c = a ++ (b ++ c).
Proof. induction a as [|x a IH]; simpl; [reflexivity|now rewrite IH]. Qed.

Lemma append_nil_r (a : string) : a ++ "" = a.
Proof. induction a as [|x a IH]; simpl; [reflexivity|now rewrite IH]. Qed.

Lemma occurs_in_refl (s : string) : occurs_in s s.
Proof. exists "", "". simpl. now rewrite append_nil_r. Qed.

Lemma occurs_in_suffix (s pre : string) : occurs_in s (pre ++ s).
Proof. exists pre, "". now rewrite append_nil_r. Qed.

Lemma occurs_in_append_l (s a b : string) : occurs_in s a -> occurs_in s (a ++ b).
Proof.
  intros (pre & post & ->). exists pre, (post ++ b).
  now rewrite !append_assoc.
Qed.

Lemma occurs_in_append_r (s a b : string) : occurs_in s b -> occurs_in s (a ++ b).
Proof.
  intros (pre & post & ->). exists (a ++ pre), post.
  now rewrite !append_assoc.
Qed.

Lemma occurs_in_trans (a b c : string) :
  occurs_in a b -> occurs_in b c -> occurs_in a c.
Proof.
  intros (p1 & q1 & ->) (p2 & q2 & ->).
  exists (p2 ++ p1), (q1 ++ q2). now rewrite !append_assoc.
Qed.


(** ** Running a handler step by step *)

Lemma bind_run {A B} (c : M A) (k : A -> M B) (w w' : World) (a : A) :
  c w = (Normal a, w') -> bind c k w = k a w'.
Proof. intros E. unfold bind. now rewrite E. Qed.

Lemma try_run {A} (body handler : M A) (w w' : World) (a : A) :
  body w = (Normal a, w') -> try_catch body handler w = (Normal a, w').
Proof. intros E. unfold try_catch. now rewrite E. Qed.

Lemma catch_run {A} (body handler : M A) (w w' : World) :
  body w = (Thrown, w') -> try_catch body handler w = handler w'.
Proof. intros E. unfold try_catch. now rewrite E. Qed.

Section Completion.
Context `{Host}.

(** The synchronous handlers never throw. *)
Lemma showToast_run (message type : string) (w : World) :
  showToast message type w = (Normal tt, exec (showToast message type) w).
Proof.
  unfold exec, showToast. unfold_M.
  destruct (String.eqb type "success"); [reflexivity|].
  destruct (String.eqb type "error"); reflexivity.
Qed.

Lemma clearForm_run (w : World) : clearForm w = (Normal tt, exec clearForm w).
Proof. reflexivity. Qed.

Lemma reload_all_run (w : World) : reload_all w = (Normal tt, exec reload_all w).
Proof. reflexivity. Qed.

Lemma toast_visible_showToast (message type : string) (w : World) :
  toast_visible (exec (showToast message type) w) = true.
Proof. rewrite exec_showToast. apply contains_add. Qed.
End Completion.

Section Submission.
Context `{Host}.

(** C4. A submission answered with a 2xx status runs, in this order, the
    success notification, [clearForm] and the five read operations: the
    toast shows the success text in the success style, the seven
    checkboxes are unchecked, and the requests of today's status, stats,
    weekly reports, monthly reports and history have left, in this
    order, each with its async function now waiting. *)
Theorem submit_success_resets_and_reloads (body : option ErrorBody) (w : World) :
  let w' := exec (dailyForm_submit_resumed (Response true body)) w in
  w' = exec reload_all (exec clearForm (exec (showToast saved_message "success") w)) /\
  toast_message (toast w') = saved_message /\
  (icon_className (toast w'), background (toast w')) = toast_style "success" /\
  toast_visible w' = true /\
  (forall t, checkbox t w' = false) /\
  requests (net w') = (requests (net w) ++ read_requests w)%list /\
  inflight (net w') = (inflight (net w) ++ reads_started)%list.
Proof.
  assert (E : exec (dailyForm_submit_resumed (Response true body)) w
              = exec reload_all
                  (exec clearForm (exec (showToast saved_message "success") w))).
  { unfold exec at 1. unfold dailyForm_submit_resumed.
    erewrite try_run; [reflexivity|].
    erewrite bind_run by reflexivity.
    cbn [response_ok fst].
    erewrite bind_run by apply showToast_run.
    erewrite bind_run by apply clearForm_run.
    apply reload_all_run. }
  cbv zeta. rewrite E, exec_reload_all, exec_clearForm, exec_showToast.
  repeat split.
  - unfold toast_visible.
    cbn [toast with_net with_form with_timeouts with_toast toast_classes].
    apply contains_add.
  - intros t. destruct t; reflexivity.
Qed.

(** What a failed submission leaves on the page, in terms of the one
    notification it shows. *)
Lemma submit_failure_run (o : Outcome ErrorBody) (w : World) :
  failed o ->
  exec (dailyForm_submit_resumed o) w
  = exec (showToast
            match o with
            | Response _ (Some error) => "Error: " ++ detail_text error
            | _ => network_error_message
            end "error") w.
Proof.
  intros F. unfold exec at 1. unfold dailyForm_submit_resumed.
  destruct o as [|ok [error|]]; cbn in F; subst.
  - erewrite catch_run by reflexivity. reflexivity.
  - erewrite try_run; [reflexivity|].
    erewrite bind_run by reflexivity. cbn [response_ok fst].
    erewrite bind_run by reflexivity. apply showToast_run.
  - erewrite catch_run by reflexivity. reflexivity.
Qed.

(** C1. A submission that fails, by a non-2xx response or by a thrown
    request, leaves the form (the seven checkboxes and the date fields),
    the regions and the network log as they were: no read operation is
    started.  It shows one notification in the error style: the text
    [Error: ] followed by the [detail] of the response body when the
    response is non-2xx, and the fixed network-error text when the
    request threw or the body could not be read. *)
Theorem submit_failure_keeps_form (o : Outcome ErrorBody) (w : World) :
  failed o ->
  let w' := exec (dailyForm_submit_resumed o) w in
  form w' = form w /\
  (forall t, checkbox t w' = checkbox t w) /\
  requests (net w') = requests (net w) /\
  inflight (net w') = inflight (net w) /\
  regions w' = regions w /\
  toast_visible w' = true /\
  (icon_className (toast w'), background (toast w')) = toast_style "error" /\
  (o = NetworkError -> toast_message (toast w') = network_error_message) /\
  (forall ok, o = Response ok None ->
     toast_message (toast w') = network_error_message) /\
  (forall ok error d, o = Response ok (Some error) -> detail error = Some d ->
     toast_message (toast w') = "Error: " ++ d /\
     occurs_in d (toast_message (toast w'))).
Proof.
  intros F. cbv zeta. rewrite (submit_failure_run o w F), exec_showToast.
  cbn [form regions net toast with_timeouts with_toast toast_message
       icon_className background].
  do 5 (split; [reflexivity|]).
  split; [|split; [reflexivity|split; [|split]]].
  - unfold toast_visible. cbn [toast with_timeouts with_toast toast_classes].
    apply contains_add.
  - intros ->. reflexivity.
  - intros ok ->. reflexivity.
  - intros ok error d -> Hd. unfold detail_text. rewrite Hd.
    split; [reflexivity|apply occurs_in_suffix].
Qed.
End Submission.

(** ** The event loop *)

Section LoopFacts.
Context `{Host}.

Lemma run_app (es1 es2 : list Event) (w : World) :
  run (es1 ++ es2) w = run es2 (run es1 w).
Proof. unfold run. apply fold_left_app. Qed.

Lemma run_cons (e : Event) (es : list Event) (w : World) :
  run (e :: es) w = run es (dispatch e w).
Proof. reflexivity. Qed.

(** A call that waits can be resumed. *)
Lemma take_waiting (p : Pending) (l l' : list Pending) :
  exists rest, take p (l ++ p :: l') = Some rest.
Proof.
  induction l as [|q l IH]; simpl.
  - destruct p; simpl; eauto.
  - destruct (Pending_eqb p q); [eauto|].
    destruct IH as [rest ->]. simpl. eauto.
Qed.

(** Clicking checkboxes touches nothing but the form. *)
Lemma toggles_frame (picks : list Task) (w : World) :
  net (run (map Toggle picks) w) = net w /\
  regions (run (map Toggle picks) w) = regions w /\
  toast (run (map Toggle picks) w) = toast w.
Proof.
  revert w. induction picks as [|t picks IH]; intros w; [now simpl|].
  simpl map. rewrite run_cons.
  destruct (IH (dispatch (Toggle t) w)) as (-> & -> & ->).
  now destruct t.
Qed.
End LoopFacts.

Section TodayStatus.
Context `{Host}.

(** A 2xx answer of [/api/today] with a JSON body: the badges are
    rendered, then the checkboxes are populated or cleared. *)
Lemma loadTodayStatus_resumed_run (data : DailyEntry) (w : World) :
  exec (loadTodayStatus_resumed (Response true (Some data))) w
  = let w1 := exec (assign_innerHTML todayStatus (statusHtml data)) w in
    if exists_ data
    then with_form (mkForm (date_value (form w)) (startDate_value (form w))
                           (endDate_value (form w)) (entry_flags data)) w1
    else exec clearForm w1.
Proof.
  unfold loadTodayStatus_resumed, clearForm. unfold_M.
  cbn -[statusHtml].
  destruct (exists_ data); [|reflexivity].
  cbn -[statusHtml]. now destruct (entry_flags data).
Qed.

(** C3. After a successful [/api/today] response every checkbox equals the
    boolean of the same name in the payload when [exists] is true, and
    is unchecked when [exists] is false, whatever booleans the payload
    carries. *)
Theorem today_status_sets_checkboxes (data : DailyEntry) (w : World) (t : Task) :
  checkbox t (exec (loadTodayStatus_resumed (Response true (Some data))) w)
  = if exists_ data then flag t (entry_flags data) else false.
Proof.
  rewrite loadTodayStatus_resumed_run. cbv zeta. unfold checkbox.
  destruct (exists_ data).
  - reflexivity.
  - rewrite exec_clearForm. now destruct t.
Qed.

(** C10. A successful [/api/today] response without an entry for today
    runs [clearForm] after rendering the badges.  This holds on the
    auto-refresh path too: whatever boxes the user ticks between the
    timer's request and its answer, all seven are unchecked once the
    answer has been handled. *)
Theorem today_missing_discards_selections
    (data : DailyEntry) (w : World) (picks : list Task) :
  exists_ data = false ->
  exec (loadTodayStatus_resumed (Response true (Some data))) w
  = exec clearForm (exec (assign_innerHTML todayStatus (statusHtml data)) w) /\
  let w' := run (Interval :: map Toggle picks
                 ++ [Settle PToday (Response true (Some data))])%list w in
  forall t, checkbox t w' = false.
Proof.
  intros E. split.
  - rewrite loadTodayStatus_resumed_run. cbv zeta. now rewrite E.
  - cbv zeta. intros t. rewrite run_cons, run_app.
    set (w1 := dispatch Interval w).
    set (w2 := run (map Toggle picks) w1).
    assert (N : inflight (net w2) = (inflight (net w) ++ [PToday; PStats])%list).
    { subst w2. destruct (toggles_frame picks w1) as (-> & _). subst w1.
      unfold dispatch, auto_refresh, loadTodayStatus, loadStats. unfold_M.
      cbn -[String.append]. now rewrite <- app_assoc. }
    cbn [run fold_left dispatch]. rewrite N.
    destruct (take_waiting PToday (inflight (net w)) [PStats]) as [rest ->].
    cbn [resume]. rewrite loadTodayStatus_resumed_run. cbv zeta. rewrite E.
    rewrite exec_clearForm. unfold checkbox. now destruct t.
Qed.
End TodayStatus.

(** ** The tab switcher *)

Lemma strict_eq_true (a b : option string) : strict_eq a b = true <-> a = b.
Proof.
  destruct a as [x|], b as [y|]; simpl; try (split; congruence).
  rewrite String.eqb_eq. split; congruence.
Qed.

Lemma strict_eq_false (a b : option string) : a <> b -> strict_eq a b = false.
Proof.
  intros N. destruct (strict_eq a b) eqn:E; [|reflexivity].
  now apply strict_eq_true in E.
Qed.

Lemma filter_map_commute {A} (f : A -> bool) (g : A -> A) (l : list A) :
  filter f (map g l) = map g (filter (fun x => f (g x)) l).
Proof.
  induction l as [|x l IH]; simpl; [reflexivity|].
  destruct (f (g x)); simpl; now rewrite IH.
Qed.

Lemma filter_none {A} (f : A -> bool) (l : list A) :
  (forall x, In x l -> f x = false) -> filter f l = [].
Proof.
  induction l as [|x l IH]; simpl; intros N; [reflexivity|].
  rewrite (N x (or_introl eq_refl)). apply IH. intros y Iy. apply N. now right.
Qed.

Lemma filter_singleton {A} (f : A -> bool) (l : list A) :
  length (filter f l) = 1%nat -> exists x, filter f l = [x] /\ f x = true.
Proof.
  intros L. destruct (filter f l) as [|x [|y r]] eqn:E; try discriminate.
  exists x. split; [reflexivity|].
  assert (I : In x (filter f l)) by (rewrite E; now left).
  now apply filter_In in I.
Qed.

(** Each selector ends active exactly when it matches the requested tab. *)
Lemma switch_btn_active (tab : option string) (b : TabBtn) :
  btn_active (switch_btn tab b) = strict_eq (data_tab b) tab /\
  data_tab (switch_btn tab b) = data_tab b.
Proof.
  unfold switch_btn, btn_active. cbn [data_tab btn_classes].
  destruct (strict_eq (data_tab b) tab); cbn [data_tab btn_classes].
  - split; [apply contains_add|reflexivity].
  - split; [apply contains_remove|reflexivity].
Qed.

Lemma switch_panel_active (tab : option string) (p : TabPanel) :
  panel_active (switch_panel tab p)
  = String.eqb (panel_id p) (template_text tab ++ "Tab") /\
  panel_id (switch_panel tab p) = panel_id p.
Proof.
  unfold switch_panel, panel_active. cbn [panel_id panel_classes].
  destruct (String.eqb (panel_id p) (template_text tab ++ "Tab"));
    cbn [panel_id panel_classes].
  - split; [apply contains_add|reflexivity].
  - split; [apply contains_remove|reflexivity].
Qed.

Section TabSwitcher.
Context `{Host}.

Lemma switchTab_same (tab : option string) (w : World) :
  currentTab (tabs w) = tab -> exec (switchTab tab) w = w.
Proof.
  intros E. unfold switchTab. unfold_M. cbn.
  apply strict_eq_true in E. now rewrite E.
Qed.

Lemma switchTab_other (tab : option string) (w : World) :
  currentTab (tabs w) <> tab ->
  tabs (exec (switchTab tab) w)
  = mkTabs (map (switch_btn tab) (tab_btns (tabs w)))
           (map (switch_panel tab) (tab_panels (tabs w))) tab.
Proof.
  intros N. unfold switchTab. unfold_M. cbn.
  now rewrite (strict_eq_false _ _ N).
Qed.

(** C6. On a page with one selector button and one panel per view:
    [switchTab] with the current tab changes nothing, neither a class
    nor [currentTab]; with another of the three views it leaves exactly
    one button and exactly one panel active, those of the requested
    view, every other one inactive, and makes the view current. *)
Theorem switchTab_one_active (w : World) (tab : string) :
  one_selector_per_view (tabs w) ->
  In tab views ->
  (currentTab (tabs w) = Some tab -> exec (switchTab (Some tab)) w = w) /\
  (currentTab (tabs w) <> Some tab ->
     let w' := exec (switchTab (Some tab)) w in
     (exists b, active_btns w' = [b] /\ data_tab b = Some tab) /\
     (exists p, active_panels w' = [p] /\ panel_id p = tab ++ "Tab") /\
     (forall b, In b (tab_btns (tabs w')) -> btn_active b = names_tab tab b) /\
     (forall p, In p (tab_panels (tabs w')) -> panel_active p = shows_tab tab p) /\
     currentTab (tabs w') = Some tab).
Proof.
  intros WF V. split; [apply switchTab_same|].
  intros N. cbv zeta. unfold active_btns, active_panels.
  rewrite (switchTab_other (Some tab) w N). cbn [tab_btns tab_panels currentTab].
  destruct (WF tab V) as [Lb Lp].
  repeat split.
  - rewrite filter_map_commute.
    rewrite (filter_ext _ (names_tab tab)) by (intros b; apply switch_btn_active).
    destruct (filter_singleton _ _ Lb) as (b & -> & Eb).
    exists (switch_btn (Some tab) b). split; [reflexivity|].
    rewrite (proj2 (switch_btn_active _ b)). now apply strict_eq_true.
  - rewrite filter_map_commute.
    rewrite (filter_ext _ (shows_tab tab)) by (intros p; apply switch_panel_active).
    destruct (filter_singleton _ _ Lp) as (p & -> & Ep).
    exists (switch_panel (Some tab) p). split; [reflexivity|].
    rewrite (proj2 (switch_panel_active _ p)). now apply String.eqb_eq.
  - intros b' I. apply in_map_iff in I. destruct I as (b & <- & _).
    unfold names_tab. destruct (switch_btn_active (Some tab) b) as [-> ->].
    reflexivity.
  - intros p' I. apply in_map_iff in I. destruct I as (p & <- & _).
    unfold shows_tab. destruct (switch_panel_active (Some tab) p) as [-> ->].
    reflexivity.
Qed.

(** C9. [switchTab] with a name that is not current and that no button's
    [data-tab] and no panel's id matches leaves every button and every
    panel without the active class, and records the name as
    [currentTab], so that the same call again changes nothing. *)
Theorem switchTab_unknown_clears_all (w : World) (tab : string) :
  currentTab (tabs w) <> Some tab ->
  (forall b, In b (tab_btns (tabs w)) -> data_tab b <> Some tab) ->
  (forall p, In p (tab_panels (tabs w)) -> panel_id p <> tab ++ "Tab") ->
  let w' := exec (switchTab (Some tab)) w in
  (forall b, In b (tab_btns (tabs w')) -> btn_active b = false) /\
  (forall p, In p (tab_panels (tabs w')) -> panel_active p = false) /\
  active_btns w' = [] /\
  active_panels w' = [] /\
  currentTab (tabs w') = Some tab /\
  exec (switchTab (Some tab)) w' = w'.
Proof.
  intros N Nb Np. cbv zeta.
  assert (Ab : forall b, In b (tab_btns (tabs (exec (switchTab (Some tab)) w))) ->
                         btn_active b = false).
  { rewrite (switchTab_other (Some tab) w N). cbn [tab_btns].
    intros b' I. apply in_map_iff in I. destruct I as (b & <- & I).
    rewrite (proj1 (switch_btn_active _ b)).
    apply strict_eq_false. now apply Nb. }
  assert (Ap : forall p, In p (tab_panels (tabs (exec (switchTab (Some tab)) w))) ->
                         panel_active p = false).
  { rewrite (switchTab_other (Some tab) w N). cbn [tab_panels].
    intros p' I. apply in_map_iff in I. destruct I as (p & <- & I).
    rewrite (proj1 (switch_panel_active _ p)). cbn [template_text].
    apply String.eqb_neq. now apply Np. }
  split; [exact Ab|]. split; [exact Ap|].
  split; [now apply filter_none|]. split; [now apply filter_none|].
  assert (C : currentTab (tabs (exec (switchTab (Some tab)) w)) = Some tab)
    by now rewrite (switchTab_other (Some tab) w N).
  split; [exact C|]. now apply switchTab_same.
Qed.
End TabSwitcher.

(** ** Notifications and their timers *)

Section Timers.
Context `{Host}.

Lemma hide_toast_twice (w : World) :
  exec hide_toast (exec hide_toast w) = exec hide_toast w.
Proof.
  rewrite !exec_hide_toast. unfold with_toast.
  cbn [clock form regions date_info toast timeouts tabs net
       toast_message icon_className background toast_classes].
  now rewrite remove_remove.
Qed.

Lemma hide_again (due : list Z) (w : World) :
  fold_left (fun w _ => exec hide_toast w) due (exec hide_toast w)
  = exec hide_toast w.
Proof.
  induction due as [|d due IH]; simpl; [reflexivity|].
  now rewrite hide_toast_twice.
Qed.

(** However many callbacks are due at once, they hide the toast once. *)
Lemma hide_many (due : list Z) (w : World) :
  fold_left (fun w _ => exec hide_toast w) due w
  = match due with
    | [] => w
    | _ :: _ => exec hide_toast w
    end.
Proof. destruct due as [|d due]; [reflexivity|]. simpl. apply hide_again. Qed.

(** Time passing changes the clock, drops the timers that fired and, if
    one fired, hides the toast; the text and style of the toast stay. *)
Lemma advance_spec (t : Z) (w : World) :
  let w' := advance t w in
  clock w' = Z.max (clock w) t /\
  timeouts w' = filter (fun d => negb (d <=? t)) (timeouts w) /\
  toast_message (toast w') = toast_message (toast w) /\
  icon_className (toast w') = icon_className (toast w) /\
  background (toast w') = background (toast w) /\
  ((exists d, In d (timeouts w) /\ d <= t) -> toast_visible w' = false).
Proof.
  cbv zeta. unfold advance. rewrite hide_many.
  destruct (filter (fun d => d <=? t) (timeouts w)) as [|d0 due] eqn:E.
  - repeat split. intros (d & I & L).
    assert (I' : In d (filter (fun d => d <=? t) (timeouts w))).
    { apply filter_In. split; [exact I|]. now apply Z.leb_le. }
    rewrite E in I'. destruct I'.
  - rewrite exec_hide_toast. repeat split. intros _.
    unfold toast_visible. cbn [toast with_clock with_timeouts with_toast toast_classes].
    apply contains_remove.
Qed.

(** C8. Each [showToast] appends its own hide timer, due 3000 ms after
    the call, and leaves the timers already waiting in place.  A second
    notification [dt] ms after a first one, with [0 < dt < 3000],
    overwrites text, icon and background and is visible; when the first
    timer fires, 3000 ms after the first call, the toast is hidden
    although the second notification has been up for [3000 - dt] ms
    only, and the second timer is still waiting. *)
Theorem showToast_timers_are_independent
    (w : World) (m1 type1 m2 type2 : string) (dt : Z) :
  0 < dt < 3000 ->
  let w1 := exec (showToast m1 type1) w in
  let w1' := advance (clock w + dt) w1 in
  let w2 := exec (showToast m2 type2) w1' in
  let w3 := advance (clock w + 3000) w2 in
  timeouts w1 = (timeouts w ++ [clock w + 3000])%list /\
  timeouts w2 = (timeouts w1' ++ [clock w1' + 3000])%list /\
  In (clock w + 3000) (timeouts w1') /\
  toast_message (toast w2) = m2 /\
  (icon_className (toast w2), background (toast w2)) = toast_style type2 /\
  toast_visible w2 = true /\
  clock w3 - clock w2 = 3000 - dt /\
  toast_visible w3 = false /\
  toast_message (toast w3) = m2 /\
  In (clock w2 + 3000) (timeouts w3).
Proof.
  intros D. cbv zeta.
  set (w1 := exec (showToast m1 type1) w).
  assert (T1 : timeouts w1 = (timeouts w ++ [clock w + 3000])%list).
  { subst w1. rewrite exec_showToast. reflexivity. }
  assert (K1 : clock w1 = clock w) by (subst w1; rewrite exec_showToast; reflexivity).
  set (w1' := advance (clock w + dt) w1).
  destruct (advance_spec (clock w + dt) w1) as (K1' & T1' & _).
  fold w1' in K1', T1'. rewrite K1 in K1'.
  assert (K1'' : clock w1' = clock w + dt) by lia. clear K1'.
  assert (I1 : In (clock w + 3000) (timeouts w1')).
  { rewrite T1', T1. apply filter_In. split.
    - apply in_or_app. right. now left.
    - apply negb_true_iff, Z.leb_gt. lia. }
  set (w2 := exec (showToast m2 type2) w1').
  assert (T2 : timeouts w2 = (timeouts w1' ++ [clock w1' + 3000])%list)
    by (subst w2; rewrite exec_showToast; reflexivity).
  assert (K2 : clock w2 = clock w + dt)
    by (subst w2; rewrite exec_showToast; exact K1'').
  assert (M2 : toast_message (toast w2) = m2)
    by (subst w2; rewrite exec_showToast; reflexivity).
  destruct (advance_spec (clock w + 3000) w2) as (K3 & T3 & M3 & _ & _ & V3).
  cbv zeta in K3, T3, M3, V3.
  split; [exact T1|]. split; [exact T2|]. split; [exact I1|].
  split; [exact M2|].
  split.
  { subst w2. rewrite exec_showToast.
    cbn [toast with_timeouts with_toast icon_className background].
    symmetry. apply surjective_pairing. }
  split; [subst w2; apply toast_visible_showToast|].
  split; [rewrite K3, K2; lia|].
  split.
  - apply V3. exists (clock w + 3000). split; [|lia].
    rewrite T2. apply in_or_app. now left.
  - split; [now rewrite M3|].
    rewrite T3, T2, K2, K1''. apply filter_In. split.
    + apply in_or_app. right. now left.
    + apply negb_true_iff, Z.leb_gt. lia.
Qed.
End Timers.

(** ** Comparisons of doubles *)

(** [Math.min] is defined with the kernel's comparisons; their meaning
    comes from the specification of binary64 in [SpecFloat]. *)

Lemma SFcompare_refl (x : spec_float) : x <> S754_nan -> SFcompare x x = Some Eq.
Proof.
  destruct x as [s|s| |s m e]; cbn; intros N; try congruence.
  - now destruct s.
  - change (Pos.compare_cont Eq m m) with (Pos.compare m m).
    rewrite Z.compare_refl, Pos.compare_refl. now destruct s.
Qed.

Lemma SFcompare_Lt_Gt (x y : spec_float) :
  SFcompare x y = Some Lt -> SFcompare y x = Some Gt.
Proof.
  destruct x as [s1|s1| |s1 m1 e1], y as [s2|s2| |s2 m2 e2]; cbn;
    try destruct s1; try destruct s2; try congruence.
  all: change (Pos.compare_cont Eq m1 m2) with (Pos.compare m1 m2).
  all: change (Pos.compare_cont Eq m2 m1) with (Pos.compare m2 m1).
  all: rewrite (Z.compare_antisym e1 e2), (Pos.compare_antisym m1 m2).
  all: destruct (e1 ?= e2); cbn; try congruence.
  all: destruct (m1 ?= m2)%positive; cbn; congruence.
Qed.

Lemma is_nan_Prim2SF (a : float) : is_nan a = false <-> Prim2SF a <> S754_nan.
Proof.
  unfold is_nan. rewrite FloatAxioms.eqb_spec. unfold SFeqb. split.
  - intros E N. rewrite N in E. discriminate.
  - intros N. now rewrite SFcompare_refl.
Qed.

Lemma ltb_not_nan (a b : float) :
  (a <? b)%float = true -> is_nan a = false /\ is_nan b = false.
Proof.
  rewrite FloatAxioms.ltb_spec. unfold SFltb. intros L.
  split; apply is_nan_Prim2SF; intros E; rewrite E in L;
    [|destruct (Prim2SF a)]; discriminate.
Qed.

Lemma ltb_asym (a b : float) : (a <? b)%float = true -> (b <? a)%float = false.
Proof.
  rewrite !FloatAxioms.ltb_spec. unfold SFltb.
  destruct (SFcompare (Prim2SF a) (Prim2SF b)) as [[| |]|] eqn:E; try discriminate.
  intros _. now rewrite (SFcompare_Lt_Gt _ _ E).
Qed.

Lemma Math_min_below (p : float) :
  (p <? 100)%float = true -> JSNumber.Math_min p 100%float = p.
Proof.
  intros L. unfold JSNumber.Math_min.
  destruct (ltb_not_nan _ _ L) as [-> ->]. now rewrite L.
Qed.

Lemma Math_min_above (p : float) :
  (100 <? p)%float = true -> JSNumber.Math_min p 100%float = 100%float.
Proof.
  intros L. unfold JSNumber.Math_min.
  destruct (ltb_not_nan _ _ L) as [-> ->]. now rewrite (ltb_asym _ _ L), L.
Qed.

Lemma SFcompare_Gt_Lt (x y : spec_float) :
  SFcompare x y = Some Gt -> SFcompare y x = Some Lt.
Proof.
  destruct x as [s1|s1| |s1 m1 e1], y as [s2|s2| |s2 m2 e2]; cbn;
    try destruct s1; try destruct s2; try congruence.
  all: change (Pos.compare_cont Eq m1 m2) with (Pos.compare m1 m2).
  all: change (Pos.compare_cont Eq m2 m1) with (Pos.compare m2 m1).
  all: rewrite (Z.compare_antisym e1 e2), (Pos.compare_antisym m1 m2).
  all: destruct (e1 ?= e2); cbn; try congruence.
  all: destruct (m1 ?= m2)%positive; cbn; congruence.
Qed.

Lemma SFcompare_None (x y : spec_float) :
  SFcompare x y = None -> x = S754_nan \/ y = S754_nan.
Proof.
  destruct x as [s1|s1| |s1 m1 e1], y as [s2|s2| |s2 m2 e2]; cbn;
    intros E; try discriminate; auto.
Qed.

(** Whatever the percentage, the width is at most 100. *)
Lemma Math_min_le_100 (p : float) :
  is_nan p = false -> (JSNumber.Math_min p 100 <=? 100)%float = true.
Proof.
  intros N. unfold JSNumber.Math_min. rewrite N.
  change (is_nan 100) with false. cbn [orb].
  destruct (p <? 100)%float eqn:L.
  - rewrite FloatAxioms.leb_spec. rewrite FloatAxioms.ltb_spec in L.
    unfold SFleb, SFltb in *.
    now destruct (SFcompare (Prim2SF p) (Prim2SF 100)) as [[| |]|].
  - destruct (100 <? p)%float eqn:G; [reflexivity|].
    destruct (get_sign p); [|reflexivity].
    apply is_nan_Prim2SF in N.
    rewrite FloatAxioms.leb_spec. rewrite FloatAxioms.ltb_spec in L, G.
    unfold SFleb, SFltb in *.
    destruct (SFcompare (Prim2SF p) (Prim2SF 100)) as [[| |]|] eqn:C;
      try reflexivity; try discriminate.
    + apply SFcompare_Gt_Lt in C. rewrite C in G. discriminate.
    + apply SFcompare_None in C. destruct C as [C|C]; [contradiction|].
      vm_compute in C. discriminate.
Qed.

(** ** Rendering lists *)

Lemma forEach_append_from {A} (render : A -> string) (items : list A) (html : string) :
  fold_left (fun html item => html ++ render item) items html
  = html ++ forEach_append render items.
Proof.
  unfold forEach_append. revert html.
  induction items as [|x items IH]; intros html; simpl.
  - now rewrite append_nil_r.
  - rewrite IH, (IH (render x)). now rewrite append_assoc.
Qed.

(** The markup of every item is in the markup of the list. *)
Lemma forEach_append_In {A} (render : A -> string) (items : list A) (x : A) :
  In x items -> occurs_in (render x) (forEach_append render items).
Proof.
  induction items as [|y items IH]; intros I; [destruct I|].
  unfold forEach_append. simpl. rewrite forEach_append_from.
  destruct I as [->|I].
  - apply occurs_in_append_l, occurs_in_refl.
  - apply occurs_in_append_r. now apply IH.
Qed.

Lemma occurs_in_line (n : nat) (s : string) : occurs_in s (line n s).
Proof. unfold line. rewrite <- append_assoc. apply occurs_in_suffix. Qed.

(** Find a line of a template among the lines appended before and after. *)
Ltac find_line :=
  first [ solve [apply occurs_in_append_l; apply occurs_in_line]
        | apply occurs_in_append_r; find_line ].

Section Reports.
Context `{Host}.

Lemma progress_row_markup (label : string) (p : float) :
  progress_row label p
  = bar_markup label (JSNumber.toFixed 1 p)
               (JSNumber.toString (JSNumber.Math_min p 100%float)).
Proof. reflexivity. Qed.

Lemma weekly_item_rows (report : WeeklyReport) (t : Task) :
  occurs_in (progress_row (task_label t) (weekly_percentage t report))
            (weekly_item report).
Proof. unfold weekly_item. destruct t; cbn [task_label weekly_percentage]; find_line. Qed.

Lemma monthly_item_rows (report : MonthlyReport) (t : Task) :
  occurs_in (progress_row (task_label t) (monthly_average t report))
            (monthly_item report).
Proof. unfold monthly_item. destruct t; cbn [task_label monthly_average]; find_line. Qed.

(** A 2xx answer with a non-empty list of reports replaces the region by
    the markup of the reports, in order. *)
Lemma loadWeeklyReports_resumed_run (reports : list WeeklyReport) (w : World) :
  reports <> [] ->
  innerHTML weeklyReports
    (regions (exec (loadWeeklyReports_resumed (Response true (Some reports))) w))
  = forEach_append weekly_item reports.
Proof.
  intros N. destruct reports as [|r reports]; [contradiction|]. reflexivity.
Qed.

Lemma loadMonthlyReports_resumed_run (reports : list MonthlyReport) (w : World) :
  reports <> [] ->
  innerHTML monthlyReports
    (regions (exec (loadMonthlyReports_resumed (Response true (Some reports))) w))
  = forEach_append monthly_item reports.
Proof.
  intros N. destruct reports as [|r reports]; [contradiction|]. reflexivity.
Qed.
End Reports.

(** ** The shape of [toFixed(1)] *)

Lemma length_append (a b : string) :
  String.length (a ++ b) = (String.length a + String.length b)%nat.
Proof. induction a as [|c a IH]; simpl; [reflexivity|now rewrite IH]. Qed.

Lemma length_zeros (n : nat) : String.length (JSNumber.zeros n) = n.
Proof. induction n as [|n IH]; simpl; [reflexivity|now rewrite IH]. Qed.

Lemma length_substring (s : string) (n m : nat) :
  (n + m <= String.length s)%nat -> String.length (substring n m s) = m.
Proof.
  revert n m. induction s as [|c s IH]; intros n m L; simpl in L.
  - assert (n = 0%nat) by lia. assert (m = 0%nat) by lia. subst. reflexivity.
  - destruct n as [|n]; simpl.
    + destruct m as [|m]; simpl; [reflexivity|].
      f_equal. apply (IH 0%nat). lia.
    + apply IH. lia.
Qed.

Lemma fixed_digits_one_decimal (n : Z) : one_decimal (JSNumber.fixed_digits 1 n).
Proof.
  unfold JSNumber.fixed_digits. cbn [Nat.eqb].
  set (m0 := JSNumber.decimal n).
  set (m := if (String.length m0 <=? 1)%nat
            then JSNumber.zeros (1 + 1 - String.length m0) ++ m0 else m0).
  assert (L : (2 <= String.length m)%nat).
  { subst m. destruct (Nat.leb_spec (String.length m0) 1).
    - rewrite length_append, length_zeros. lia.
    - lia. }
  eexists _, _. split; [reflexivity|]. apply length_substring. lia.
Qed.

(** Below 10^21 in magnitude, [toFixed(1)] of a non-zero finite double
    ends with a point and one more character. *)
Lemma toFixed_one_decimal (x : float) (s : bool) (m : positive) (e : Z) :
  Prim2SF x = S754_finite s m e ->
  Qle_bool (JSNumber.pow10 21) (JSNumber.real_of m e) = false ->
  one_decimal (JSNumber.toFixed 1 x).
Proof.
  intros P B. unfold JSNumber.toFixed. rewrite P, B.
  destruct (fixed_digits_one_decimal
              (JSNumber.round_half_up
                 (JSNumber.real_of m e * JSNumber.pow10 (Z.of_nat 1))))
    as (a & d & -> & L).
  exists ((if s then "-" else "") ++ a), d. split; [|exact L].
  now rewrite append_assoc.
Qed.

Section ReportBars.
Context `{Host}.

(** C5. In every rendered weekly and monthly report, each of the seven
    tasks has a progress bar whose label shows the percentage [p] with
    one decimal, unclamped, and whose fill is [Math.min(p, 100)] percent
    wide: [p] itself below 100, exactly 100 above, never more than 100.
    The label of a finite [p] below 10^21 in magnitude ends with a point
    and one digit place.  A percentage of 150 gives the label [150.0%]
    over a width of [100%]. *)
Theorem report_bars_clamp_width_only :
  (forall (w : World) (reports : list WeeklyReport) (report : WeeklyReport) (t : Task),
      In report reports ->
      let p := weekly_percentage t report in
      occurs_in
        (bar_markup (task_label t) (JSNumber.toFixed 1 p)
                    (JSNumber.toString (JSNumber.Math_min p 100%float)))
        (innerHTML weeklyReports
           (regions (exec (loadWeeklyReports_resumed (Response true (Some reports))) w)))) /\
  (forall (w : World) (reports : list MonthlyReport) (report : MonthlyReport) (t : Task),
      In report reports ->
      let p := monthly_average t report in
      occurs_in
        (bar_markup (task_label t) (JSNumber.toFixed 1 p)
                    (JSNumber.toString (JSNumber.Math_min p 100%float)))
        (innerHTML monthlyReports
           (regions (exec (loadMonthlyReports_resumed (Response true (Some reports))) w)))) /\
  (forall p : float, (p <? 100)%float = true -> JSNumber.Math_min p 100%float = p) /\
  (forall p : float, (100 <? p)%float = true -> JSNumber.Math_min p 100%float = 100%float) /\
  (forall p : float, is_nan p = false ->
                     (JSNumber.Math_min p 100 <=? 100)%float = true) /\
  (forall (p : float) (s : bool) (m : positive) (e : Z),
      Prim2SF p = S754_finite s m e ->
      Qle_bool (JSNumber.pow10 21) (JSNumber.real_of m e) = false ->
      one_decimal (JSNumber.toFixed 1 p)) /\
  JSNumber.toFixed 1 150%float = "150.0" /\
  JSNumber.toString (JSNumber.Math_min 150%float 100%float) = "100".
Proof.
  split; [|split; [|split; [|split; [|split; [|split; [|split]]]]]].
  - intros w reports report t I. cbv zeta.
    rewrite loadWeeklyReports_resumed_run by (intros ->; destruct I).
    rewrite <- progress_row_markup.
    eapply occurs_in_trans; [apply weekly_item_rows|].
    now apply forEach_append_In.
  - intros w reports report t I. cbv zeta.
    rewrite loadMonthlyReports_resumed_run by (intros ->; destruct I).
    rewrite <- progress_row_markup.
    eapply occurs_in_trans; [apply monthly_item_rows|].
    now apply forEach_append_In.
  - exact Math_min_below.
  - exact Math_min_above.
  - exact Math_min_le_100.
  - exact toFixed_one_decimal.
  - vm_compute. reflexivity.
  - vm_compute. reflexivity.
Qed.
End ReportBars.

(** ** Failed reads *)

Section FailedReads.
Context `{Host}.

(** C2, as the code has it.  A read whose request throws or is answered
    with a non-2xx status shows no notification and leaves the form and
    the other regions alone.  After a non-2xx answer its own region is
    left as it was, too.  After a thrown request [loadStats],
    [loadWeeklyReports] and [loadMonthlyReports] put the loading
    placeholder into their region and [loadHistory] puts its error
    message there. *)
Theorem failed_read_effects
    (p : Pending) (r : Region) (o : Outcome (Payload p)) (w : World) :
  region_of p = Some r ->
  failed o ->
  let w' := exec (resume p o) w in
  toast w' = toast w /\
  timeouts w' = timeouts w /\
  form w' = form w /\
  (forall r', r' <> r -> innerHTML r' (regions w') = innerHTML r' (regions w)) /\
  match o with
  | Response _ _ => regions w' = regions w
  | NetworkError =>
      match p with
      | PStats | PWeekly | PMonthly => innerHTML r (regions w') = "<p>Loading...</p>"
      | PHistory => innerHTML r (regions w') = "<p>Error loading history</p>"
      | PToday | PSubmit => True
      end
  end.
Proof.
  intros R F. cbv zeta.
  destruct p; cbn in R; try discriminate; injection R as <-;
    destruct o as [|ok body]; cbn in F; subst; cbn [resume];
    (split; [reflexivity|]); (split; [reflexivity|]); (split; [reflexivity|]);
    (split; [|reflexivity || exact I]);
    intros r' N; destruct r'; try reflexivity; contradiction.
Qed.
End FailedReads.

(** C2, as stated, fails: after a non-2xx answer the stats region keeps
    the counters rendered before, none of the placeholder, empty-state or
    error-state messages. *)
Lemma failed_read_keeps_old_markup :
  let data := mkStats 12 None None in
  let w := run (H := utc_host) [Interval; Settle PStats (Response true (Some data))] page in
  let o : Outcome (Payload PStats) := Response false None in
  let w' := run (H := utc_host) [Interval; Settle PStats o] w in
  failed o /\
  regions w' = regions w /\
  innerHTML stats (regions w') = statsHtml data /\
  ~ shows_placeholder stats w'.
Proof.
  cbv zeta. split; [reflexivity|]. split; [reflexivity|].
  split; [vm_compute; reflexivity|].
  unfold shows_placeholder, placeholder_messages.
  vm_compute. intros [E|[E|[E|[E|[E|[]]]]]]; discriminate E.
Qed.

(** Also a thrown [/api/today] request renders nothing: the catch block
    of [loadTodayStatus] only logs. *)
Lemma today_status_throw_renders_nothing `{Host} (w : World) :
  regions (exec (loadTodayStatus_resumed NetworkError) w) = regions w /\
  console (net (exec (loadTodayStatus_resumed NetworkError) w))
  = (console (net w) ++ ["Error loading today status:"])%list.
Proof. split; reflexivity. Qed.

(** ** Years and days *)

Lemma DayFromYear_step (y : Z) :
  JSDate.DayFromYear y + 365 <= JSDate.DayFromYear (y + 1) <= JSDate.DayFromYear y + 366.
Proof.
  unfold JSDate.DayFromYear.
  replace (y + 1 - 1970) with (y - 1970 + 1) by lia.
  replace (y + 1 - 1969) with (y - 1969 + 1) by lia.
  replace (y + 1 - 1901) with (y - 1901 + 1) by lia.
  replace (y + 1 - 1601) with (y - 1601 + 1) by lia.
  Z.to_euclidean_division_equations; lia.
Qed.

Lemma DayFromYear_mono (a b : Z) :
  a <= b -> JSDate.DayFromYear a <= JSDate.DayFromYear b.
Proof.
  intros L. unfold JSDate.DayFromYear.
  Z.to_euclidean_division_equations; lia.
Qed.

(** [YearFromTime t] is the year [t] falls in. *)
Lemma YearFromTime_spec (t : Z) :
  JSDate.TimeFromYear (JSDate.YearFromTime t) <= t
  < JSDate.TimeFromYear (JSDate.YearFromTime t + 1).
Proof.
  unfold JSDate.TimeFromYear, JSDate.YearFromTime, JSDate.Day, JSDate.msPerDay.
  set (d := t / 86400000).
  assert (Hd : 86400000 * d <= t < 86400000 * (d + 1)).
  { subst d. Z.to_euclidean_division_equations; lia. }
  set (y := 1970 + d * 400 / 146097).
  assert (Hy : JSDate.DayFromYear (y - 1) <= d < JSDate.DayFromYear (y + 2)).
  { subst y. unfold JSDate.DayFromYear. Z.to_euclidean_division_equations; lia. }
  pose proof (DayFromYear_step (y - 1)) as S1.
  pose proof (DayFromYear_step y) as S2.
  pose proof (DayFromYear_step (y + 1)) as S3.
  replace (y - 1 + 1) with y in * by lia.
  replace (y + 1 + 1) with (y + 2) in * by lia.
  destruct (Z.ltb_spec d (JSDate.DayFromYear y)).
  - replace (y - 1 + 1) with y by lia. lia.
  - destruct (Z.leb_spec (JSDate.DayFromYear (y + 1)) d).
    + replace (y + 1 + 1) with (y + 2) by lia. lia.
    + lia.
Qed.

(** From the eve of the epoch on, years have four digits. *)
Lemma YearFromTime_recent (t : Z) :
  - JSDate.msPerDay <= t -> 1969 <= JSDate.YearFromTime t.
Proof.
  intros L. destruct (Z.le_gt_cases 1969 (JSDate.YearFromTime t)) as [G|G]; [exact G|].
  exfalso. pose proof (YearFromTime_spec t) as [_ U].
  assert (M : JSDate.DayFromYear (JSDate.YearFromTime t + 1) <= JSDate.DayFromYear 1969)
    by (apply DayFromYear_mono; lia).
  unfold JSDate.TimeFromYear, JSDate.msPerDay in *.
  change (JSDate.DayFromYear 1969) with (-365) in M. lia.
Qed.

Lemma WeekDay_range (t : Z) : 0 <= JSDate.WeekDay t <= 6.
Proof. unfold JSDate.WeekDay. pose proof (Z.mod_pos_bound (JSDate.Day t + 4) 7). lia. Qed.

Section DateInfoFacts.
Context `{Host}.

(** C7. With the clock at or after the epoch, the week number shown is
    the ceiling of [(dayOfYear + Jan1Weekday + 1) / 7]: [dayOfYear] is
    the number of whole days between local midnight of January 1st of
    the current year and now, and [Jan1Weekday] is the weekday of that
    midnight, 0 for Sunday. *)
Theorem week_number_formula (w : World) :
  0 <= clock w ->
  let now := clock w in
  let year := JSDate.getFullYear now in
  let jan1 := JSDate.UTC (JSDate.TimeFromYear year) in
  let Jan1Weekday := JSDate.getDay jan1 in
  JSDate.TimeFromYear year <= JSDate.LocalTime now < JSDate.TimeFromYear (year + 1) /\
  0 <= Jan1Weekday <= 6 /\
  exists dayOfYear weekNumber : Z,
    jan1 + dayOfYear * JSDate.msPerDay <= now
      < jan1 + (dayOfYear + 1) * JSDate.msPerDay /\
    7 * (weekNumber - 1) < dayOfYear + Jan1Weekday + 1 <= 7 * weekNumber /\
    week_number_text (date_info (exec updateDateInfo w)) = integer_text weekNumber.
Proof.
  intros E. cbv zeta.
  split; [apply YearFromTime_spec|]. split; [apply WeekDay_range|].
  assert (Y : JSDate.MakeFullYear (JSDate.getFullYear (clock w))
              = JSDate.getFullYear (clock w)).
  { unfold JSDate.MakeFullYear.
    assert (1969 <= JSDate.getFullYear (clock w)).
    { apply YearFromTime_recent. unfold JSDate.LocalTime, JSDate.msPerDay.
      pose proof (LocalTZA_bounded (clock w) true). lia. }
    destruct (Z.leb_spec (JSDate.getFullYear (clock w)) 99); [lia|].
    now rewrite andb_false_r. }
  set (jan1 := JSDate.UTC (JSDate.TimeFromYear (JSDate.getFullYear (clock w)))).
  assert (S : JSDate.Date_jan1 (JSDate.getFullYear (clock w)) = jan1).
  { unfold JSDate.Date_jan1. now rewrite Y. }
  exists ((clock w - jan1) / JSDate.msPerDay).
  exists (- (- ((clock w - jan1) / JSDate.msPerDay + JSDate.getDay jan1 + 1) / 7)).
  split; [|split].
  - unfold JSDate.msPerDay. Z.to_euclidean_division_equations; lia.
  - Z.to_euclidean_division_equations; lia.
  - unfold updateDateInfo. unfold_M.
    cbn [snd date_info with_date_info week_number_text].
    rewrite S. reflexivity.
Qed.
End DateInfoFacts.

(* ================================================================== *)
(** * The properties on a concrete page *)
(* ================================================================== *)

(** The page of the spec has one selector and one panel per view. *)
Lemma page_one_selector_per_view : one_selector_per_view (tabs page).
Proof.
  intros tab [<-|[<-|[<-|[]]]]; split; reflexivity.
Defined.

(** A refused submission with two boxes ticked: the text of the server is
    shown and the ticks stay. *)
Lemma submit_failure_keeps_form_witness :
  let o : Outcome ErrorBody :=
    Response false (Some (mkErrorBody (Some "Entry already exists"))) in
  let w := run (H := utc_host) [Toggle Gym; Toggle Sql] page in
  let w' := exec (dailyForm_submit_resumed (H := utc_host) o) w in
  failed o /\
  toast_message (toast w') = "Error: Entry already exists" /\
  occurs_in "Entry already exists" (toast_message (toast w')) /\
  checked (form w') = mkFlags true false false false true false false /\
  requests (net w') = requests (net w).
Proof.
  cbv zeta.
  pose proof (submit_failure_keeps_form (H := utc_host)
                (Response false (Some (mkErrorBody (Some "Entry already exists"))))
                (run (H := utc_host) [Toggle Gym; Toggle Sql] page) eq_refl) as T.
  cbv zeta in T. destruct T as (F & _ & R & _ & _ & _ & _ & _ & _ & D).
  destruct (D false _ _ eq_refl eq_refl) as [M O].
  split; [reflexivity|]. split; [exact M|]. split; [exact O|].
  split; [rewrite F; reflexivity|exact R].
Defined.

(** A thrown history request: the error message, and no notification. *)
Lemma failed_read_effects_witness :
  let w' := exec (resume (H := utc_host) PHistory NetworkError) page in
  region_of PHistory = Some historyList /\
  failed (@NetworkError (Payload PHistory)) /\
  innerHTML historyList (regions w') = "<p>Error loading history</p>" /\
  toast w' = toast page.
Proof.
  cbv zeta.
  destruct (failed_read_effects (H := utc_host) PHistory historyList NetworkError page
              eq_refl I) as (T & _ & _ & _ & R).
  split; [reflexivity|]. split; [exact I|]. split; [exact R|exact T].
Defined.

Lemma report_bars_clamp_width_only_witness :
  In report_150 [report_150] /\
  occurs_in (bar_markup "GYM" "150.0" "100")
    (innerHTML weeklyReports
       (regions (exec (loadWeeklyReports_resumed (H := utc_host)
                         (Response true (Some [report_150]))) page))).
Proof.
  split; [now left|].
  exact (proj1 (report_bars_clamp_width_only (H := utc_host))
           page [report_150] report_150 Gym (or_introl eq_refl)).
Defined.

(** From the weekly view to the monthly one. *)
Lemma switchTab_one_active_witness :
  let w' := exec (switchTab (Some "monthly")) page in
  one_selector_per_view (tabs page) /\
  In "monthly" views /\
  currentTab (tabs page) <> Some "monthly" /\
  (exists b, active_btns w' = [b] /\ data_tab b = Some "monthly") /\
  (exists p, active_panels w' = [p] /\ panel_id p = "monthlyTab") /\
  currentTab (tabs w') = Some "monthly".
Proof.
  cbv zeta.
  assert (V : In "monthly" views) by (right; now left).
  assert (N : currentTab (tabs page) <> Some "monthly") by discriminate.
  destruct (switchTab_one_active page "monthly" page_one_selector_per_view V) as [_ S].
  destruct (S N) as (B & P & _ & _ & C).
  split; [exact page_one_selector_per_view|]. split; [exact V|]. split; [exact N|].
  split; [exact B|]. split; [exact P|exact C].
Defined.

(** A tab name the page does not have. *)
Lemma switchTab_unknown_clears_all_witness :
  let w' := exec (switchTab (Some "settings")) page in
  currentTab (tabs page) <> Some "settings" /\
  active_btns w' = [] /\
  active_panels w' = [] /\
  currentTab (tabs w') = Some "settings" /\
  exec (switchTab (Some "settings")) w' = w'.
Proof.
  cbv zeta.
  assert (N : currentTab (tabs page) <> Some "settings") by discriminate.
  assert (Nb : forall b, In b (tab_btns (tabs page)) -> data_tab b <> Some "settings").
  { intros b [<-|[<-|[<-|[]]]]; discriminate. }
  assert (Np : forall p, In p (tab_panels (tabs page)) -> panel_id p <> "settings" ++ "Tab").
  { intros p [<-|[<-|[<-|[]]]]; discriminate. }
  destruct (switchTab_unknown_clears_all page "settings" N Nb Np)
    as (_ & _ & B & P & C & S).
  split; [exact N|]. split; [exact B|]. split; [exact P|]. split; [exact C|exact S].
Defined.

(** Two notifications one second apart. *)
Lemma showToast_timers_are_independent_witness :
  let w1 := exec (showToast "first" "success") page in
  let w2 := exec (showToast "second" "error") (advance 1000 w1) in
  let w3 := advance 3000 w2 in
  0 < 1000 < 3000 /\
  toast_visible w2 = true /\
  toast_visible w3 = false /\
  toast_message (toast w3) = "second" /\
  clock w3 - clock w2 = 2000 /\
  In 4000 (timeouts w3).
Proof.
  cbv zeta.
  assert (D : 0 < 1000 < 3000) by lia.
  destruct (showToast_timers_are_independent page "first" "success" "second" "error"
              1000 D) as (_ & _ & _ & _ & _ & V2 & C & V3 & M3 & I3).
  split; [exact D|]. split; [exact V2|]. split; [exact V3|]. split; [exact M3|].
  split; [exact C|exact I3].
Defined.

(** Noon of March 15th, 2024, in UTC: the year began on a Monday, 74 whole
    days ago, and the week number shown is 11. *)
Lemma week_number_formula_witness :
  let w := with_clock 1710504000000 page in
  0 <= clock w /\
  week_number_text (date_info (exec (updateDateInfo (H := utc_host)) w)) = "11".
Proof.
  cbv zeta.
  assert (E : 0 <= clock (with_clock 1710504000000 page)) by (cbn; lia).
  destruct (week_number_formula (H := utc_host) (with_clock 1710504000000 page) E)
    as (_ & _ & d & n & Hd & Hn & T).
  split; [exact E|]. rewrite T.
  change (JSDate.UTC (H := utc_host)
            (JSDate.TimeFromYear
               (JSDate.getFullYear (H := utc_host) (clock (with_clock 1710504000000 page)))))
    with 1704067200000 in Hd, Hn.
  change (JSDate.getDay (H := utc_host) 1704067200000) with 1 in Hn.
  change (clock (with_clock 1710504000000 page)) with 1710504000000 in Hd.
  unfold JSDate.msPerDay in Hd.
  assert (n = 11) as -> by lia. reflexivity.
Defined.

(** The auto-refresh answers that today has no entry after the user has
    ticked two boxes. *)
Lemma today_missing_discards_selections_witness :
  let data := mkDailyEntry "2024-03-15" unchecked false in
  let w' := run (H := utc_host)
              (Interval :: map Toggle [Gym; Aws]
               ++ [Settle PToday (Response true (Some data))])%list page in
  exists_ data = false /\
  checkbox Gym (run (H := utc_host) (Interval :: map Toggle [Gym; Aws]) page) = true /\
  forall t, checkbox t w' = false.
Proof.
  cbv zeta. split; [reflexivity|]. split; [reflexivity|].
  exact (proj2 (today_missing_discards_selections (H := utc_host)
                  (mkDailyEntry "2024-03-15" unchecked false) page [Gym; Aws] eq_refl)).
Defined.

(* ================================================================== *)
(** * Properties of the rest of the script *)
(* ================================================================== *)

(** ** Calendar dates *)

Lemma DaysInYear_cases (y : Z) :
  JSCalendar.DaysInYear y = 365 \/ JSCalendar.DaysInYear y = 366.
Proof.
  unfold JSCalendar.DaysInYear.
  destruct ((y mod 4 =? 0) && (negb (y mod 100 =? 0) || (y mod 400 =? 0))); auto.
Qed.

Lemma DayFromYear_succ (y : Z) :
  JSDate.DayFromYear (y + 1) = JSDate.DayFromYear y + JSCalendar.DaysInYear y.
Proof.
  unfold JSCalendar.DaysInYear, JSDate.DayFromYear.
  replace (y + 1 - 1970) with (y - 1970 + 1) by lia.
  replace (y + 1 - 1969) with (y - 1969 + 1) by lia.
  replace (y + 1 - 1901) with (y - 1901 + 1) by lia.
  replace (y + 1 - 1601) with (y - 1601 + 1) by lia.
  destruct (Z.eqb_spec (y mod 4) 0), (Z.eqb_spec (y mod 100) 0),
    (Z.eqb_spec (y mod 400) 0); cbn [andb orb negb];
    Z.to_euclidean_division_equations; lia.
Qed.

Lemma Day_bounds (t : Z) :
  JSDate.DayFromYear (JSDate.YearFromTime t) <= JSDate.Day t
  < JSDate.DayFromYear (JSDate.YearFromTime t + 1).
Proof.
  pose proof (YearFromTime_spec t) as B.
  unfold JSDate.TimeFromYear, JSDate.Day, JSDate.msPerDay in *.
  Z.to_euclidean_division_equations; lia.
Qed.

(** The year of a day is the only one whose days include it. *)
Lemma YearFromTime_unique (t y : Z) :
  JSDate.DayFromYear y <= JSDate.Day t < JSDate.DayFromYear (y + 1) ->
  JSDate.YearFromTime t = y.
Proof.
  intros B. pose proof (Day_bounds t) as B'.
  destruct (Z.lt_trichotomy (JSDate.YearFromTime t) y) as [L|[E|G]]; [|exact E|].
  - pose proof (DayFromYear_mono (JSDate.YearFromTime t + 1) y ltac:(lia)). lia.
  - pose proof (DayFromYear_mono (y + 1) (JSDate.YearFromTime t) ltac:(lia)). lia.
Qed.

Lemma DayWithinYear_range (t : Z) :
  0 <= JSCalendar.DayWithinYear t < JSCalendar.DaysInYear (JSDate.YearFromTime t).
Proof.
  unfold JSCalendar.DayWithinYear. pose proof (Day_bounds t) as B.
  rewrite DayFromYear_succ in B. lia.
Qed.

(** Year, month and date of a time value: the month is one of twelve, the
    date lies in the month, and MakeDay gives the day back. *)
Lemma calendar_decomposition (t : Z) :
  0 <= JSCalendar.MonthFromTime t <= 11 /\
  1 <= JSCalendar.DateFromTime t <= 31 /\
  JSCalendar.MakeDay (JSDate.YearFromTime t) (JSCalendar.MonthFromTime t)
                     (JSCalendar.DateFromTime t) = JSDate.Day t.
Proof.
  pose proof (DayWithinYear_range t) as R.
  assert (L : JSCalendar.leap (JSDate.YearFromTime t) = 0
              \/ JSCalendar.leap (JSDate.YearFromTime t) = 1).
  { unfold JSCalendar.leap. destruct (DaysInYear_cases (JSDate.YearFromTime t)); lia. }
  assert (R' : 0 <= JSCalendar.DayWithinYear t
               < 365 + JSCalendar.leap (JSDate.YearFromTime t))
    by (unfold JSCalendar.leap; lia).
  clear R.
  assert (ED : JSDate.Day t
               = JSDate.DayFromYear (JSDate.YearFromTime t) + JSCalendar.DayWithinYear t)
    by (unfold JSCalendar.DayWithinYear; lia).
  unfold JSCalendar.MakeDay, JSCalendar.DateFromTime, JSCalendar.MonthFromTime.
  rewrite ED.
  generalize dependent (JSCalendar.DayWithinYear t). intros d R' _.
  repeat match goal with
         | |- context [?a <? ?b] => destruct (Z.ltb_spec a b)
         end;
    try rewrite Z.div_small by lia; try rewrite Z.mod_small by lia;
    cbn [JSCalendar.month_start]; rewrite ?Z.add_0_r;
    generalize dependent (JSCalendar.leap (JSDate.YearFromTime t)); intros l; intros;
    lia.
Qed.

(** ** Decimal texts *)

Lemma decimal_inj (a b : Z) :
  0 <= a -> 0 <= b -> JSNumber.decimal a = JSNumber.decimal b -> a = b.
Proof.
  intros A B E. unfold JSNumber.decimal in E.
  assert (U : forall n, NilZero.uint_of_string (NilZero.string_of_uint (N.to_uint n))
                        = Some (N.to_uint n)).
  { intros n. apply NilZero.usu. destruct n; [discriminate|].
    apply DecimalPos.Unsigned.to_uint_nonnil. }
  pose proof (U (Z.to_N a)) as Ua. rewrite E, U in Ua.
  injection Ua as Ua. apply DecimalN.Unsigned.to_uint_inj in Ua. lia.
Qed.

(** The text of a non-negative integer does not start with a minus sign. *)
Lemma decimal_not_minus (a : Z) (s : string) : JSNumber.decimal a <> "-" ++ s.
Proof.
  intros E. unfold JSNumber.decimal in E.
  assert (U : NilZero.uint_of_string (NilZero.string_of_uint (N.to_uint (Z.to_N a)))
              = Some (N.to_uint (Z.to_N a))).
  { apply NilZero.usu. destruct (Z.to_N a); [discriminate|].
    apply DecimalPos.Unsigned.to_uint_nonnil. }
  rewrite E in U. simpl in U.
  destruct (NilEmpty.uint_of_string s); discriminate U.
Qed.

Lemma integer_text_inj (a b : Z) : integer_text a = integer_text b -> a = b.
Proof.
  unfold integer_text.
  destruct (Z.ltb_spec a 0), (Z.ltb_spec b 0); intros E.
  - injection E as E. apply decimal_inj in E; lia.
  - symmetry in E. now apply decimal_not_minus in E.
  - now apply decimal_not_minus in E.
  - now apply decimal_inj.
Qed.

Lemma append_inj_suffix (a1 b1 a2 b2 : string) :
  String.length b1 = String.length b2 ->
  a1 ++ b1 = a2 ++ b2 -> a1 = a2 /\ b1 = b2.
Proof.
  revert a2. induction a1 as [|c a1 IH]; intros [|c2 a2] L E; simpl in E.
  - now split.
  - exfalso. rewrite E in L. simpl in L. rewrite length_append in L. lia.
  - exfalso. rewrite <- E in L. simpl in L. rewrite length_append in L. lia.
  - injection E as -> E. destruct (IH a2 L E) as [-> ->]. now split.
Qed.

Lemma Z_range_In (lo : Z) (len : nat) (n : Z) :
  lo <= n < lo + Z.of_nat len -> In n (Z_range lo len).
Proof.
  intros B. unfold Z_range. apply in_map_iff.
  exists (Z.to_nat (n - lo)). split; [lia|]. apply in_seq. lia.
Qed.

(** Months and days of the month are written with two characters, and
    different ones differently. *)
Lemma two_digits_length (n : Z) : 0 <= n <= 99 -> String.length (two_digits n) = 2%nat.
Proof.
  intros B.
  assert (C : forallb (fun n => (String.length (two_digits n) =? 2)%nat)
                      (Z_range 0 100) = true) by (vm_compute; reflexivity).
  rewrite forallb_forall in C. apply Nat.eqb_eq, C, Z_range_In. lia.
Qed.

Lemma two_digits_inj (a b : Z) :
  0 <= a <= 99 -> 0 <= b <= 99 -> two_digits a = two_digits b -> a = b.
Proof.
  intros A B E.
  assert (C : forallb (fun a => forallb (fun b =>
                implb (String.eqb (two_digits a) (two_digits b)) (a =? b))
                (Z_range 0 100)) (Z_range 0 100) = true) by (vm_compute; reflexivity).
  rewrite forallb_forall in C.
  specialize (C a (Z_range_In 0 100 a ltac:(lia))).
  rewrite forallb_forall in C.
  specialize (C b (Z_range_In 0 100 b ltac:(lia))).
  apply String.eqb_eq in E. rewrite E in C. now apply Z.eqb_eq.
Qed.

Section FormatDateFacts.
Context `{Host}.

(** The three parts of a formatted date. *)
Lemma formatDate_parts (t : Z) :
  formatDate (Some t)
  = integer_text (JSDate.getFullYear t) ++ "-"
    ++ two_digits (JSCalendar.getMonth t + 1) ++ "-"
    ++ two_digits (JSCalendar.getDate t).
Proof. reflexivity. Qed.

Lemma getMonth_getDate_range (t : Z) :
  1 <= JSCalendar.getMonth t + 1 <= 12 /\ 1 <= JSCalendar.getDate t <= 31.
Proof.
  unfold JSCalendar.getMonth, JSCalendar.getDate.
  destruct (calendar_decomposition (JSDate.LocalTime t)) as (M & D & _). lia.
Qed.

Lemma four_digits (y : Z) :
  1000 <= y <= 9999 -> String.length (integer_text y) = 4%nat.
Proof.
  intros B.
  assert (C : forallb (fun n => (String.length (integer_text n) =? 4)%nat)
                      (Z_range 1000 (Z.to_nat 9000)) = true) by (vm_compute; reflexivity).
  rewrite forallb_forall in C. apply Nat.eqb_eq, C, Z_range_In. lia.
Qed.

(** X1. For a date whose local year has four digits, [formatDate] gives
    ten characters: the year, a hyphen, the month from 01 to 12, a hyphen
    and the day of the month from 01 to 31, both with two digits. *)
Theorem formatDate_shape (t : Z) :
  1000 <= JSDate.getFullYear t <= 9999 ->
  exists yyyy mm dd : string,
    formatDate (Some t) = yyyy ++ "-" ++ mm ++ "-" ++ dd /\
    String.length yyyy = 4%nat /\ String.length mm = 2%nat /\
    String.length dd = 2%nat /\
    String.length (formatDate (Some t)) = 10%nat /\
    yyyy = integer_text (JSDate.getFullYear t) /\
    mm = two_digits (JSCalendar.getMonth t + 1) /\
    dd = two_digits (JSCalendar.getDate t) /\
    1 <= JSCalendar.getMonth t + 1 <= 12 /\
    1 <= JSCalendar.getDate t <= 31.
Proof.
  intros Y. destruct (getMonth_getDate_range t) as [M D].
  exists (integer_text (JSDate.getFullYear t)),
    (two_digits (JSCalendar.getMonth t + 1)), (two_digits (JSCalendar.getDate t)).
  pose proof (four_digits _ Y) as L4.
  assert (Lm : String.length (two_digits (JSCalendar.getMonth t + 1)) = 2%nat)
    by (apply two_digits_length; lia).
  assert (Ld : String.length (two_digits (JSCalendar.getDate t)) = 2%nat)
    by (apply two_digits_length; lia).
  split; [apply formatDate_parts|].
  split; [exact L4|]. split; [exact Lm|]. split; [exact Ld|].
  split.
  { rewrite formatDate_parts, !length_append, L4, Lm, Ld. reflexivity. }
  split; [reflexivity|]. split; [reflexivity|]. split; [reflexivity|].
  split; [exact M|exact D].
Qed.

(** The calendar fields of a time value depend on its day only. *)
Lemma calendar_fields_of_day (t1 t2 : Z) :
  JSDate.Day t1 = JSDate.Day t2 ->
  JSDate.YearFromTime t1 = JSDate.YearFromTime t2 /\
  JSCalendar.MonthFromTime t1 = JSCalendar.MonthFromTime t2 /\
  JSCalendar.DateFromTime t1 = JSCalendar.DateFromTime t2.
Proof.
  intros E.
  assert (Y : JSDate.YearFromTime t1 = JSDate.YearFromTime t2)
    by (unfold JSDate.YearFromTime; now rewrite E).
  assert (W : JSCalendar.DayWithinYear t1 = JSCalendar.DayWithinYear t2)
    by (unfold JSCalendar.DayWithinYear; now rewrite E, Y).
  assert (M : JSCalendar.MonthFromTime t1 = JSCalendar.MonthFromTime t2)
    by (unfold JSCalendar.MonthFromTime; now rewrite W, Y).
  split; [exact Y|]. split; [exact M|].
  unfold JSCalendar.DateFromTime. now rewrite M, W, Y.
Qed.

(** X2. Two time values are formatted alike exactly when they fall on the
    same local calendar day. *)
Theorem formatDate_same_day (t1 t2 : Z) :
  formatDate (Some t1) = formatDate (Some t2)
  <-> JSDate.Day (JSDate.LocalTime t1) = JSDate.Day (JSDate.LocalTime t2).
Proof.
  destruct (getMonth_getDate_range t1) as [M1 D1].
  destruct (getMonth_getDate_range t2) as [M2 D2].
  rewrite !formatDate_parts.
  set (y1 := integer_text (JSDate.getFullYear t1)).
  set (y2 := integer_text (JSDate.getFullYear t2)).
  assert (Lm1 : String.length (two_digits (JSCalendar.getMonth t1 + 1)) = 2%nat)
    by (apply two_digits_length; lia).
  assert (Lm2 : String.length (two_digits (JSCalendar.getMonth t2 + 1)) = 2%nat)
    by (apply two_digits_length; lia).
  assert (Ld1 : String.length (two_digits (JSCalendar.getDate t1)) = 2%nat)
    by (apply two_digits_length; lia).
  assert (Ld2 : String.length (two_digits (JSCalendar.getDate t2)) = 2%nat)
    by (apply two_digits_length; lia).
  set (m1 := two_digits (JSCalendar.getMonth t1 + 1)) in *.
  set (m2 := two_digits (JSCalendar.getMonth t2 + 1)) in *.
  set (d1 := two_digits (JSCalendar.getDate t1)) in *.
  set (d2 := two_digits (JSCalendar.getDate t2)) in *.
  split.
  - intros E.
    apply append_inj_suffix in E;
      [|cbn [String.length String.append]; rewrite !length_append;
        cbn [String.length String.append]; lia].
    destruct E as [EY E]. injection E as E.
    apply append_inj_suffix in E; [|cbn [String.length String.append]; lia].
    destruct E as [EM E]. injection E as ED.
    subst y1 y2 m1 m2 d1 d2.
    apply integer_text_inj in EY.
    apply two_digits_inj in EM; [|lia|lia].
    apply two_digits_inj in ED; [|lia|lia].
    unfold JSDate.getFullYear, JSCalendar.getMonth, JSCalendar.getDate in *.
    destruct (calendar_decomposition (JSDate.LocalTime t1)) as (_ & _ & <-).
    destruct (calendar_decomposition (JSDate.LocalTime t2)) as (_ & _ & <-).
    rewrite EY, ED.
    replace (JSCalendar.MonthFromTime (JSDate.LocalTime t1))
      with (JSCalendar.MonthFromTime (JSDate.LocalTime t2)) by lia.
    reflexivity.
  - intros E. apply calendar_fields_of_day in E. destruct E as (EY & EM & ED).
    subst y1 y2 m1 m2 d1 d2.
    unfold JSDate.getFullYear, JSCalendar.getMonth, JSCalendar.getDate.
    now rewrite EY, EM, ED.
Qed.
End FormatDateFacts.

(** ** Page load *)

Section PageLoadFacts.
Context `{Host}.

Lemma formatDate_nonempty (date : option Z) : nonempty (formatDate date) = true.
Proof.
  destruct date as [t|]; [|reflexivity].
  rewrite formatDate_parts. unfold nonempty.
  destruct (integer_text (JSDate.getFullYear t)); reflexivity.
Qed.

(** X3. [setDate(getDate() - 7)] moves the local time back by exactly
    seven days, whatever the month or year the result falls in.  Where the
    zone offset is constant and the result is a valid time value, the
    default start date is the instant seven days before now, seven local
    calendar days earlier. *)
Theorem weekAgo_seven_days_back (now : Z) :
  weekAgo now
  = JSCalendar.TimeClip (JSDate.UTC (JSDate.LocalTime now - 7 * JSDate.msPerDay)) /\
  (forall off : Z,
      (forall t isUTC, LocalTZA t isUTC = off) ->
      Z.abs (now - 7 * JSDate.msPerDay) <= 8640000000000000 ->
      weekAgo now = Some (now - 7 * JSDate.msPerDay) /\
      JSDate.Day (JSDate.LocalTime (now - 7 * JSDate.msPerDay))
      = JSDate.Day (JSDate.LocalTime now) - 7).
Proof.
  assert (E : weekAgo now
              = JSCalendar.TimeClip
                  (JSDate.UTC (JSDate.LocalTime now - 7 * JSDate.msPerDay))).
  { unfold weekAgo, JSCalendar.setDate, JSCalendar.getDate. f_equal. f_equal.
    set (lt := JSDate.LocalTime now).
    destruct (calendar_decomposition lt) as (_ & _ & D).
    unfold JSCalendar.MakeDate, JSCalendar.TimeWithinDay.
    replace (JSCalendar.MakeDay (JSDate.YearFromTime lt) (JSCalendar.MonthFromTime lt)
               (JSCalendar.DateFromTime lt - 7))
      with (JSDate.Day lt - 7)
      by (rewrite <- D; unfold JSCalendar.MakeDay; lia).
    unfold JSDate.Day, JSDate.msPerDay.
    pose proof (Z.div_mod lt 86400000 ltac:(lia)). lia. }
  split; [exact E|].
  intros off C R. rewrite E. unfold JSDate.UTC, JSDate.LocalTime.
  rewrite !C. split.
  - replace (now + off - 7 * JSDate.msPerDay - off) with (now - 7 * JSDate.msPerDay) by lia.
    unfold JSCalendar.TimeClip.
    destruct (Z.leb_spec (Z.abs (now - 7 * JSDate.msPerDay)) 8640000000000000);
      [reflexivity|lia].
  - unfold JSDate.Day, JSDate.msPerDay.
    replace (now - 7 * 86400000 + off) with (now + off + (-7) * 86400000) by lia.
    rewrite Z.div_add by lia. lia.
Qed.

(** X4. Page load fills the date field, its maximum and the end of the
    history range with today's date and the start of the range with the
    date a week ago, renders the date info, and starts the five reads in
    the order stats, today, weekly, monthly, history.  The history request
    of page load always carries the date filter of that range.  It leaves
    checkboxes, regions, toast and tabs alone. *)
Theorem DOMContentLoaded_defaults (w : World) :
  let doc := DOMContentLoaded w in
  let today := formatDate (Some (clock w)) in
  let start := formatDate (weekAgo (clock w)) in
  date_value (form (doc_page doc)) = today /\
  date_max doc = today /\
  endDate_value (form (doc_page doc)) = today /\
  startDate_value (form (doc_page doc)) = start /\
  requests (net (doc_page doc))
  = (requests (net w)
     ++ [ GET "/api/stats/"; GET "/api/today"; GET "/api/weekly/"; GET "/api/monthly/";
          GET ("/api/daily/" ++ "?start_date=" ++ start ++ "&end_date=" ++ today) ])%list /\
  inflight (net (doc_page doc))
  = (inflight (net w) ++ [PStats; PToday; PWeekly; PMonthly; PHistory])%list /\
  date_info (doc_page doc) = date_info (exec updateDateInfo w) /\
  checked (form (doc_page doc)) = checked (form w) /\
  regions (doc_page doc) = regions w /\
  toast (doc_page doc) = toast w /\
  timeouts (doc_page doc) = timeouts w /\
  tabs (doc_page doc) = tabs w.
Proof.
  cbv zeta. unfold DOMContentLoaded. cbn [doc_page date_max].
  unfold set_date_value, set_startDate_value, set_endDate_value, updateDateInfo,
    loadStats, loadTodayStatus, loadWeeklyReports, loadMonthlyReports, loadHistory.
  unfold_M.
  cbn -[String.append formatDate weekAgo history_url JSDate.Date_jan1 JSDate.getFullYear
        JSDate.getDay toLocaleDateString integer_text Math_floor_div Math_ceil_div
        Z.mul].
  do 4 (split; [reflexivity|]).
  split.
  { rewrite <- !app_assoc. cbn [app]. do 5 f_equal.
    unfold history_url, GET.
    rewrite !formatDate_nonempty. cbn [andb]. now rewrite !append_assoc. }
  split; [now rewrite <- !app_assoc|].
  repeat split.
Qed.
End PageLoadFacts.

(** ** What the reads render *)

Lemma forEach_append_join {A} (render : A -> string) (items : list A) :
  forEach_append render items = join (map render items).
Proof.
  induction items as [|x items IH]; [reflexivity|].
  unfold forEach_append. simpl. rewrite forEach_append_from. simpl.
  now rewrite IH.
Qed.

Lemma append_cancel_l (a b c : string) : a ++ b = a ++ c -> b = c.
Proof. induction a as [|x a IH]; simpl; intros E; [exact E|]. injection E as E. auto. Qed.

Section Rendering.
Context `{Host}.

(** X5. For each of the five reads, a 2xx answer whose body cannot be
    read as JSON is handled exactly like a thrown request. *)
Theorem unreadable_body_like_thrown_request (p : Pending) (r : Region) (w : World) :
  region_of p = Some r ->
  exec (resume p (Response true None)) w = exec (resume p NetworkError) w.
Proof. intros R. destruct p; try discriminate R; reflexivity. Qed.

(** X6. After a 2xx answer with a JSON list, each list region shows its
    empty-state message when the list is empty and otherwise the markup
    of the items, one after the other in the order of the list; the two
    cases never look alike. *)
Theorem list_regions_show_items_or_empty_state (w : World) :
  (forall history : list DailyEntry,
      innerHTML historyList
        (regions (exec (loadHistory_resumed (Response true (Some history))) w))
      = list_markup historyList history_item history) /\
  (forall reports : list WeeklyReport,
      innerHTML weeklyReports
        (regions (exec (loadWeeklyReports_resumed (Response true (Some reports))) w))
      = list_markup weeklyReports weekly_item reports) /\
  (forall reports : list MonthlyReport,
      innerHTML monthlyReports
        (regions (exec (loadMonthlyReports_resumed (Response true (Some reports))) w))
      = list_markup monthlyReports monthly_item reports) /\
  (forall (x : DailyEntry) l, list_markup historyList history_item (x :: l)
                              <> empty_state historyList) /\
  (forall (x : WeeklyReport) l, list_markup weeklyReports weekly_item (x :: l)
                                <> empty_state weeklyReports) /\
  (forall (x : MonthlyReport) l, list_markup monthlyReports monthly_item (x :: l)
                                 <> empty_state monthlyReports).
Proof.
  split; [|split; [|split; [|split; [|split]]]].
  - intros [|x l]; [reflexivity|].
    change (forEach_append history_item (x :: l) = join (map history_item (x :: l))).
    apply forEach_append_join.
  - intros [|x l]; [reflexivity|].
    change (forEach_append weekly_item (x :: l) = join (map weekly_item (x :: l))).
    apply forEach_append_join.
  - intros [|x l]; [reflexivity|].
    change (forEach_append monthly_item (x :: l) = join (map monthly_item (x :: l))).
    apply forEach_append_join.
  - intros x l E. discriminate E.
  - intros x l E. discriminate E.
  - intros x l E. discriminate E.
Qed.

(** X7. A history row carries one badge per task whose flag is true, with
    the task's label, in task order; the badge for a day without tasks
    appears exactly when all seven flags are false. *)
Theorem history_badges_follow_flags (item : DailyEntry) :
  completedTasks item
  = map task_label (filter (fun t => flag t (entry_flags item)) all_tasks) /\
  tasksHtml item
  = (if existsb (fun t => flag t (entry_flags item)) all_tasks
     then join (map task_badge (completedTasks item))
     else no_tasks_badge) /\
  (tasksHtml item = no_tasks_badge
   <-> forall t, flag t (entry_flags item) = false).
Proof.
  destruct item as [d [g ds m dj s p a] e].
  assert (C : completedTasks (mkDailyEntry d (mkFlags g ds m dj s p a) e)
              = map task_label
                  (filter (fun t => flag t (mkFlags g ds m dj s p a)) all_tasks))
    by (destruct g, ds, m, dj, s, p, a; reflexivity).
  assert (T : tasksHtml (mkDailyEntry d (mkFlags g ds m dj s p a) e)
              = (if existsb (fun t => flag t (mkFlags g ds m dj s p a)) all_tasks
                 then join (map task_badge
                              (completedTasks (mkDailyEntry d (mkFlags g ds m dj s p a) e)))
                 else no_tasks_badge))
    by (destruct g, ds, m, dj, s, p, a; reflexivity).
  split; [exact C|]. split; [exact T|].
  cbn [entry_flags]. split.
  - intros E t.
    destruct g, ds, m, dj, s, p, a; try (vm_compute in E; discriminate E);
      destruct t; reflexivity.
  - intros F.
    pose proof (F Gym) as Fg. pose proof (F Dsa) as Fds. pose proof (F Ml) as Fm.
    pose proof (F Django) as Fdj. pose proof (F Sql) as Fs.
    pose proof (F ProjectWork) as Fp. pose proof (F Aws) as Fa.
    cbn in Fg, Fds, Fm, Fdj, Fs, Fp, Fa. subst. reflexivity.
Qed.

(** X8. Today's badges, the bars of a weekly report and the bars of a
    monthly report list the same seven tasks, under the same labels and
    in the same order: each markup is the one item per task, for the
    tasks in order. *)
Theorem renderers_list_the_same_tasks
    (data : DailyEntry) (weekly : WeeklyReport) (monthly : MonthlyReport) :
  statusHtml data
  = join (map (fun t => status_item (task_label t) (flag t (entry_flags data))) all_tasks)
    ++ line 12 "" /\
  occurs_in
    (join (map (fun t => line 28 (progress_row (task_label t) (weekly_percentage t weekly)))
               all_tasks))
    (weekly_item weekly) /\
  occurs_in
    (join (map (fun t => line 28 (progress_row (task_label t) (monthly_average t monthly)))
               all_tasks))
    (monthly_item monthly).
Proof.
  split; [|split].
  - unfold statusHtml, all_tasks. cbn [map join fold_right task_label flag].
    rewrite !append_assoc. reflexivity.
  - unfold weekly_item, all_tasks.
    cbn [map join fold_right task_label weekly_percentage].
    do 6 apply occurs_in_append_r.
    exists "", (line 24 "</div>" ++ line 20 "</div>" ++ line 16 "").
    cbn [String.append]. now rewrite !append_assoc.
  - unfold monthly_item, all_tasks.
    cbn [map join fold_right task_label monthly_average].
    do 6 apply occurs_in_append_r.
    exists "", (line 24 "</div>" ++ line 20 "</div>" ++ line 16 "").
    cbn [String.append]. now rewrite !append_assoc.
Qed.

(** X9. A click on the history button sends one GET to [/api/daily/];
    the request carries the [start_date] and [end_date] of the form when
    both are filled in, and no query at all when either is empty.  The
    click changes nothing else on the page. *)
Theorem history_request_filter (w : World) :
  let w' := dispatch ClickLoadHistory w in
  let s := startDate_value (form w) in
  let e := endDate_value (form w) in
  requests (net w')
  = (requests (net w)
     ++ [GET (if nonempty s && nonempty e
              then "/api/daily/" ++ "?start_date=" ++ s ++ "&end_date=" ++ e
              else "/api/daily/")])%list /\
  (history_url s e = API_BASE_URL ++ "/api/daily/" <-> s = "" \/ e = "") /\
  inflight (net w') = (inflight (net w) ++ [PHistory])%list /\
  form w' = form w /\ regions w' = regions w /\ toast w' = toast w /\
  tabs w' = tabs w.
Proof.
  cbv zeta. split; [|split; [|repeat split]].
  - cbn [dispatch]. unfold loadHistory. unfold_M.
    cbn -[String.append history_url]. f_equal. unfold GET, history_url. f_equal.
    destruct (nonempty _ && nonempty _); [|reflexivity].
    f_equal. now rewrite !append_assoc.
  - unfold history_url, nonempty. split.
    + destruct (String.eqb_spec (startDate_value (form w)) ""); [now left|].
      destruct (String.eqb_spec (endDate_value (form w)) ""); [now right|].
      cbn [negb andb]. intros E. exfalso.
      rewrite <- (append_nil_r (API_BASE_URL ++ "/api/daily/")) in E at 2.
      apply append_cancel_l in E. discriminate E.
    + intros [-> | ->]; [reflexivity|].
      now rewrite String.eqb_refl, andb_false_r.
Qed.
End Rendering.

(** ** What the handlers leave alone *)

Section Frames.
Context `{Host}.

(** The continuation of a read touches neither the toast, the timers, the
    tabs, the clock, the date info nor the network log, and of the form
    at most the checkboxes. *)
Lemma read_resumed_frame (p : Pending) (r : Region) (o : Outcome (Payload p)) (w : World) :
  region_of p = Some r ->
  let w' := exec (resume p o) w in
  toast w' = toast w /\ timeouts w' = timeouts w /\ tabs w' = tabs w /\
  clock w' = clock w /\ date_info w' = date_info w /\
  requests (net w') = requests (net w) /\ inflight (net w') = inflight (net w) /\
  date_value (form w') = date_value (form w) /\
  startDate_value (form w') = startDate_value (form w) /\
  endDate_value (form w') = endDate_value (form w) /\
  (p <> PToday -> checked (form w') = checked (form w)) /\
  (forall r', r' <> r -> innerHTML r' (regions w') = innerHTML r' (regions w)).
Proof.
  intros R. cbv zeta.
  destruct p; cbn in R; try discriminate R; injection R as <-; cbn [resume];
    destruct o as [|[|] [data|]];
    try (destruct data as [|x data]);
    try (destruct (exists_ data) eqn:X);
    unfold loadStats_resumed, loadTodayStatus_resumed, loadWeeklyReports_resumed,
      loadMonthlyReports_resumed, loadHistory_resumed, clearForm;
    unfold_M; cbn -[statsHtml statusHtml forEach_append String.append];
    try rewrite X; cbn -[statsHtml statusHtml forEach_append String.append];
    repeat split; try congruence;
    intros r' N; destruct r'; try reflexivity; contradiction.
Qed.
End Frames.

Section Frames2.
Context `{Host}.

Lemma submit_success_run (body : option ErrorBody) (w : World) :
  exec (dailyForm_submit_resumed (Response true body)) w
  = exec reload_all (exec clearForm (exec (showToast saved_message "success") w)).
Proof.
  unfold exec at 1. unfold dailyForm_submit_resumed.
  erewrite try_run; [reflexivity|].
  erewrite bind_run by reflexivity.
  cbn [response_ok fst].
  erewrite bind_run by apply showToast_run.
  erewrite bind_run by apply clearForm_run.
  apply reload_all_run.
Qed.

(** Whatever the answer, the continuation of the submit handler shows one
    notification with its own timer, and leaves the tabs and the clock. *)
Lemma submit_resumed_effects (o : Outcome ErrorBody) (w : World) :
  let w' := exec (dailyForm_submit_resumed o) w in
  tabs w' = tabs w /\ clock w' = clock w /\
  timeouts w' = (timeouts w ++ [clock w + 3000])%list /\
  toast_visible w' = true.
Proof.
  cbv zeta.
  assert (F : forall m ty, let w' := exec (showToast m ty) w in
            tabs w' = tabs w /\ clock w' = clock w /\
            timeouts w' = (timeouts w ++ [clock w + 3000])%list /\
            toast_visible w' = true).
  { intros m ty. cbv zeta. split; [|split; [|split]];
      try (rewrite exec_showToast; reflexivity).
    apply toast_visible_showToast. }
  destruct o as [|[|] body].
  - rewrite (submit_failure_run NetworkError w I). apply F.
  - rewrite submit_success_run, exec_reload_all, exec_clearForm.
    destruct (F saved_message "success") as (T & C & TO & V).
    repeat split; assumption.
  - rewrite (submit_failure_run (Response false body) w eq_refl). apply F.
Qed.

Lemma advance_frame (t : Z) (w : World) :
  tabs (advance t w) = tabs w /\ form (advance t w) = form w /\
  regions (advance t w) = regions w /\ net (advance t w) = net w.
Proof.
  unfold advance. rewrite hide_many.
  destruct (filter (fun d => d <=? t) (timeouts w)); repeat split.
Qed.

(** Only a click on a tab button changes the tabs. *)
Lemma dispatch_tabs_frame (e : Event) (w : World) :
  (forall n, e <> ClickTab n) -> tabs (dispatch e w) = tabs w.
Proof.
  intros N. destruct e as [t|v|v|v| | |n| |dt|p o]; try reflexivity.
  - now contradiction (N n).
  - cbn [dispatch]. destruct (0 <=? dt); [apply advance_frame|reflexivity].
  - cbn [dispatch]. destruct (take p (inflight (net w))) as [rest|]; [|reflexivity].
    destruct (region_of p) as [r|] eqn:R.
    + destruct (read_resumed_frame p r o
                  (with_net (mkNet (requests (net w)) rest (console (net w))) w) R)
        as (_ & _ & T & _). exact T.
    + destruct p; try discriminate R. cbn [resume].
      destruct (submit_resumed_effects o
                  (with_net (mkNet (requests (net w)) rest (console (net w))) w))
        as (T & _). exact T.
Qed.
End Frames2.

(** ** The tabs over any sequence of events *)

Lemma names_tab_switch_btn (v : string) (tab : option string) (b : TabBtn) :
  names_tab v (switch_btn tab b) = names_tab v b.
Proof. unfold names_tab. now rewrite (proj2 (switch_btn_active tab b)). Qed.

Lemma shows_tab_switch_panel (v : string) (tab : option string) (p : TabPanel) :
  shows_tab v (switch_panel tab p) = shows_tab v p.
Proof. unfold shows_tab. now rewrite (proj2 (switch_panel_active tab p)). Qed.

Section TabInvariant.
Context `{Host}.

Lemma switchTab_keeps_invariant (v : string) (w : World) :
  In v views -> tabs_invariant (tabs w) ->
  tabs_invariant (tabs (exec (switchTab (Some v)) w)).
Proof.
  intros V (S & O & X).
  destruct (strict_eq (currentTab (tabs w)) (Some v)) eqn:E.
  - apply strict_eq_true in E. now rewrite (switchTab_same (Some v) w E).
  - assert (N : currentTab (tabs w) <> Some v)
      by (intros Q; apply strict_eq_true in Q; congruence).
    rewrite (switchTab_other (Some v) w N). split; [|split].
    + intros b' I. cbn [tab_btns] in I. apply in_map_iff in I.
      destruct I as (b & <- & I). rewrite (proj2 (switch_btn_active _ b)). now apply S.
    + intros u U. cbn [tab_btns tab_panels]. destruct (O u U) as [Lb Lp].
      rewrite !filter_map_commute, !length_map.
      rewrite (filter_ext _ (names_tab u)) by (intros b; apply names_tab_switch_btn).
      rewrite (filter_ext _ (shows_tab u)) by (intros p; apply shows_tab_switch_panel).
      now split.
    + exists v. split; [exact V|]. split; [reflexivity|].
      cbn [tab_btns tab_panels]. split.
      * intros b' I. apply in_map_iff in I. destruct I as (b & <- & _).
        rewrite names_tab_switch_btn. apply switch_btn_active.
      * intros p' I. apply in_map_iff in I. destruct I as (p & <- & _).
        rewrite shows_tab_switch_panel. apply switch_panel_active.
Qed.

Lemma dispatch_keeps_tabs_invariant (e : Event) (w : World) :
  tabs_invariant (tabs w) -> tabs_invariant (tabs (dispatch e w)).
Proof.
  intros I.
  assert (D : (exists n, e = ClickTab n) \/ forall n, e <> ClickTab n).
  { destruct e; try (right; discriminate). left. eauto. }
  destruct D as [[n ->]|N]; [|now rewrite dispatch_tabs_frame].
  cbn [dispatch]. destruct (nth_error (tab_btns (tabs w)) n) as [btn|] eqn:E; [|exact I].
  apply nth_error_In in E. destruct (proj1 I btn E) as (v & V & ->).
  now apply switchTab_keeps_invariant.
Qed.

Lemma run_keeps_tabs_invariant (es : list Event) (w : World) :
  tabs_invariant (tabs w) -> tabs_invariant (tabs (run es w)).
Proof.
  revert w. induction es as [|e es IH]; intros w I; [exact I|].
  rewrite run_cons. apply IH. now apply dispatch_keeps_tabs_invariant.
Qed.

(** X10. On a page whose selector buttons each name one of the three views,
    with one button and one panel per view, and where the active class
    marks the current tab: whatever the user, the timers and the network
    do afterwards, the current tab is one of the views and exactly one
    button and exactly one panel are active, those of the current tab. *)
Theorem tabs_stay_exclusive (es : list Event) (w : World) :
  selectors_name_views (tabs w) ->
  one_selector_per_view (tabs w) ->
  tabs_exclusive (tabs w) ->
  let w' := run es w in
  exists v b p,
    In v views /\ currentTab (tabs w') = Some v /\
    active_btns w' = [b] /\ data_tab b = Some v /\
    active_panels w' = [p] /\ panel_id p = v ++ "Tab".
Proof.
  intros S O X. cbv zeta.
  destruct (run_keeps_tabs_invariant es w (conj S (conj O X)))
    as (_ & O' & (v & V & C & B & P)).
  destruct (O' v V) as [Lb Lp].
  destruct (filter_singleton _ _ Lb) as (b & Eb & Nb).
  destruct (filter_singleton _ _ Lp) as (p & Ep & Np).
  exists v, b, p. split; [exact V|]. split; [exact C|].
  unfold active_btns, active_panels.
  rewrite (filter_ext_in btn_active (names_tab v)) by exact B.
  rewrite (filter_ext_in panel_active (shows_tab v)) by exact P.
  split; [exact Eb|]. split; [now apply strict_eq_true|].
  split; [exact Ep|]. now apply String.eqb_eq.
Qed.
End TabInvariant.

(** ** The toast over any sequence of events *)

Lemma filter_all {A} (f : A -> bool) (l : list A) :
  (forall x, In x l -> f x = true) -> filter f l = l.
Proof.
  induction l as [|x l IH]; simpl; intros N; [reflexivity|].
  rewrite (N x (or_introl eq_refl)). f_equal. apply IH. intros y Iy. apply N. now right.
Qed.

Section ToastInvariant.
Context `{Host}.

(** With no timer due, time passes without a trace on the toast. *)
Lemma advance_none_due (t : Z) (w : World) :
  (forall d, In d (timeouts w) -> t < d) ->
  toast (advance t w) = toast w /\ timeouts (advance t w) = timeouts w.
Proof.
  intros N. unfold advance. rewrite hide_many.
  rewrite (filter_none (fun d => d <=? t)), (filter_all (fun d => negb (d <=? t))).
  - split; reflexivity.
  - intros d I. apply negb_true_iff, Z.leb_gt. now apply N.
  - intros d I. apply Z.leb_gt. now apply N.
Qed.

Lemma advance_keeps_toast_will_hide (dt : Z) (w : World) :
  0 <= dt -> toast_will_hide w -> toast_will_hide (advance (clock w + dt) w).
Proof.
  intros D [B V].
  destruct (advance_spec (clock w + dt) w) as (C & T & _ & _ & _ & Hd).
  cbv zeta in C, T, Hd. unfold toast_will_hide. rewrite C, T. split.
  - intros d I. apply filter_In in I. destruct I as [I _]. specialize (B d I). lia.
  - intros Vis.
    destruct (existsb (fun d => d <=? clock w + dt) (timeouts w)) eqn:E.
    + apply existsb_exists in E. destruct E as (d & I & L).
      rewrite Hd in Vis; [discriminate|]. exists d. split; [exact I|]. now apply Z.leb_le.
    + assert (N : forall d, In d (timeouts w) -> clock w + dt < d).
      { intros d I. apply Z.leb_gt.
        destruct (d <=? clock w + dt) eqn:L; [|reflexivity].
        assert (X : existsb (fun d => d <=? clock w + dt) (timeouts w) = true)
          by (apply existsb_exists; eauto).
        congruence. }
      destruct (advance_none_due _ w N) as [Et Eo].
      rewrite (filter_all (fun d => negb (d <=? clock w + dt)))
        by (intros d I; apply negb_true_iff, Z.leb_gt; now apply N).
      apply V. unfold toast_visible in *. now rewrite <- Et.
Qed.

(** Handlers other than the two below leave toast, timers and clock. *)
Lemma dispatch_toast_frame (e : Event) (w : World) :
  (forall dt, e <> Elapse dt) -> (forall o, e <> Settle PSubmit o) ->
  toast (dispatch e w) = toast w /\ timeouts (dispatch e w) = timeouts w /\
  clock (dispatch e w) = clock w.
Proof.
  intros NE NS. destruct e as [t|v|v|v| | |n| |dt|p o]; try (repeat split; reflexivity).
  - cbn [dispatch]. destruct (nth_error (tab_btns (tabs w)) n) as [btn|];
      [|repeat split; reflexivity].
    unfold switchTab. unfold_M. cbn.
    destruct (strict_eq (currentTab (tabs w)) (data_tab btn)); repeat split; reflexivity.
  - now contradiction (NE dt).
  - cbn [dispatch]. destruct (take p (inflight (net w))) as [rest|];
      [|repeat split; reflexivity].
    destruct (region_of p) as [r|] eqn:R.
    + destruct (read_resumed_frame p r o
                  (with_net (mkNet (requests (net w)) rest (console (net w))) w) R)
        as (T & TO & _ & C & _). repeat split; assumption.
    + destruct p; try discriminate R. now contradiction (NS o).
Qed.

Lemma dispatch_keeps_toast_will_hide (e : Event) (w : World) :
  toast_will_hide w -> toast_will_hide (dispatch e w).
Proof.
  intros I.
  assert (D : (exists dt, e = Elapse dt) \/ (exists o, e = Settle PSubmit o)
              \/ ((forall dt, e <> Elapse dt) /\ (forall o, e <> Settle PSubmit o))).
  { destruct e as [t|v|v|v| | |n| |dt|p o];
      try (right; right; split; intros; discriminate).
    - left. eauto.
    - destruct p; try (right; right; split; intros; discriminate).
      right. left. eauto. }
  destruct D as [[dt ->]|[[o ->]|[NE NS]]].
  - cbn [dispatch]. destruct (Z.leb_spec 0 dt); [|exact I].
    now apply advance_keeps_toast_will_hide.
  - cbn [dispatch]. destruct (take PSubmit (inflight (net w))) as [rest|]; [|exact I].
    cbn [resume].
    destruct (submit_resumed_effects o
                (with_net (mkNet (requests (net w)) rest (console (net w))) w))
      as (_ & C & T & _).
    cbv zeta in C, T. unfold toast_will_hide. rewrite C, T. destruct I as [B _].
    cbn [clock timeouts with_net]. split.
    + intros d Id. apply in_app_or in Id. destruct Id as [Id|[<-|[]]]; [|lia].
      now apply B.
    + intros _ E. now apply app_eq_nil in E.
  - destruct (dispatch_toast_frame e w NE NS) as (T & TO & C).
    unfold toast_will_hide, toast_visible in *. now rewrite T, TO, C.
Qed.

Lemma run_keeps_toast_will_hide (es : list Event) (w : World) :
  toast_will_hide w -> toast_will_hide (run es w).
Proof.
  revert w. induction es as [|e es IH]; intros w I; [exact I|].
  rewrite run_cons. apply IH. now apply dispatch_keeps_toast_will_hide.
Qed.

(** X11. Starting with the toast hidden and no timer pending, whatever
    happens on the page, a visible toast always has a hide timer due
    within three seconds; so three seconds without any event leave the
    toast hidden. *)
Theorem toast_always_hides (es : list Event) (w : World) :
  toast_visible w = false ->
  timeouts w = [] ->
  let w' := run es w in
  (toast_visible w' = true ->
   exists d, In d (timeouts w') /\ d <= clock w' + 3000) /\
  toast_visible (dispatch (Elapse 3000) w') = false.
Proof.
  intros V T. cbv zeta.
  assert (I : toast_will_hide w).
  { split; [rewrite T; intros d []|]. rewrite V. discriminate. }
  apply (run_keeps_toast_will_hide es) in I. destruct I as [B N].
  assert (P : toast_visible (run es w) = true ->
              exists d, In d (timeouts (run es w)) /\ d <= clock (run es w) + 3000).
  { intros Vis. specialize (N Vis).
    destruct (timeouts (run es w)) as [|d l] eqn:E; [congruence|].
    exists d. split; [now left|]. apply B. now left. }
  split; [exact P|].
  cbn [dispatch Z.leb Z.compare].
  destruct (toast_visible (run es w)) eqn:Vis.
  - destruct (P eq_refl) as (d & Id & L).
    apply (advance_spec (clock (run es w) + 3000) (run es w)). eauto.
  - destruct (timeouts (run es w)) as [|d l] eqn:E.
    + destruct (advance_none_due (clock (run es w) + 3000) (run es w)) as [Et _].
      { rewrite E. intros d []. }
      unfold toast_visible in *. now rewrite Et.
    + apply (advance_spec (clock (run es w) + 3000) (run es w)).
      exists d. rewrite E. split; [now left|]. apply B. now left.
Qed.
End ToastInvariant.

(** ** More on the handlers *)

Lemma remove_add (c : string) (l : list string) :
  ClassList.remove c (ClassList.add c l) = ClassList.remove c l.
Proof.
  unfold ClassList.add. destruct (ClassList.contains c l); [reflexivity|].
  unfold ClassList.remove. rewrite filter_app. simpl.
  rewrite String.eqb_refl. simpl. apply app_nil_r.
Qed.

Section MoreHandlers.
Context `{Host}.

(** X12. [switchTab] changes no class but [active]: every button and
    panel keeps its place, its [data-tab] or id, and its other classes in
    their order; nothing outside the tabs changes. *)
Theorem switchTab_touches_only_active (tab : option string) (w : World) :
  let w' := exec (switchTab tab) w in
  map data_tab (tab_btns (tabs w')) = map data_tab (tab_btns (tabs w)) /\
  map panel_id (tab_panels (tabs w')) = map panel_id (tab_panels (tabs w)) /\
  map (fun b => ClassList.remove "active" (btn_classes b)) (tab_btns (tabs w'))
  = map (fun b => ClassList.remove "active" (btn_classes b)) (tab_btns (tabs w)) /\
  map (fun p => ClassList.remove "active" (panel_classes p)) (tab_panels (tabs w'))
  = map (fun p => ClassList.remove "active" (panel_classes p)) (tab_panels (tabs w)) /\
  form w' = form w /\ regions w' = regions w /\ toast w' = toast w /\
  timeouts w' = timeouts w /\ net w' = net w.
Proof.
  cbv zeta.
  assert (F : form (exec (switchTab tab) w) = form w /\
              regions (exec (switchTab tab) w) = regions w /\
              toast (exec (switchTab tab) w) = toast w /\
              timeouts (exec (switchTab tab) w) = timeouts w /\
              net (exec (switchTab tab) w) = net w).
  { unfold switchTab. unfold_M. cbn.
    destruct (strict_eq (currentTab (tabs w)) tab); repeat split. }
  destruct (strict_eq (currentTab (tabs w)) tab) eqn:E.
  - apply strict_eq_true in E. rewrite (switchTab_same tab w E) in *.
    repeat split; apply F.
  - assert (N : currentTab (tabs w) <> tab)
      by (intros Q; apply strict_eq_true in Q; congruence).
    rewrite (switchTab_other tab w N). cbn [tab_btns tab_panels].
    rewrite !map_map.
    split; [|split; [|split; [|split; [|exact F]]]]; apply map_ext; intros x.
    + apply switch_btn_active.
    + apply switch_panel_active.
    + unfold switch_btn. cbn [data_tab btn_classes].
      destruct (strict_eq (data_tab x) tab); cbn [btn_classes];
        [rewrite remove_add|]; apply remove_remove.
    + unfold switch_panel. cbn [panel_id panel_classes].
      destruct (String.eqb (panel_id x) (template_text tab ++ "Tab"));
        cbn [panel_classes]; [rewrite remove_add|]; apply remove_remove.
Qed.

Lemma Date_jan1_recent (now : Z) :
  0 <= now ->
  JSDate.Date_jan1 (JSDate.getFullYear now)
  = JSDate.UTC (JSDate.TimeFromYear (JSDate.getFullYear now)).
Proof.
  intros E. unfold JSDate.Date_jan1, JSDate.MakeFullYear.
  assert (1969 <= JSDate.getFullYear now).
  { apply YearFromTime_recent. unfold JSDate.LocalTime, JSDate.msPerDay.
    pose proof (LocalTZA_bounded now true). lia. }
  destruct (Z.leb_spec (JSDate.getFullYear now) 99); [lia|].
  now rewrite andb_false_r.
Qed.

(** X13. Where the zone offset is constant, the week number shown is
    [(dayOfYear + Jan1Weekday + 7) div 7] for the day of the local year,
    counted from 0: it lies between 1 and 54 and is 1 on January 1st. *)
Theorem week_number_range (off : Z) (w : World) :
  (forall t isUTC, LocalTZA t isUTC = off) ->
  0 <= clock w ->
  exists n : Z,
    week_number_text (date_info (exec updateDateInfo w)) = integer_text n /\
    1 <= n <= 54 /\
    (JSCalendar.DayWithinYear (JSDate.LocalTime (clock w)) = 0 -> n = 1) /\
    n = (JSCalendar.DayWithinYear (JSDate.LocalTime (clock w))
         + JSDate.WeekDay (JSDate.TimeFromYear (JSDate.getFullYear (clock w))) + 7) / 7.
Proof.
  intros C E.
  set (lt := JSDate.LocalTime (clock w)).
  set (y := JSDate.getFullYear (clock w)).
  assert (R : 0 <= JSCalendar.DayWithinYear lt <= 365).
  { pose proof (DayWithinYear_range lt) as R.
    destruct (DaysInYear_cases (JSDate.YearFromTime lt)) as [D|D]; rewrite D in R; lia. }
  pose proof (WeekDay_range (JSDate.TimeFromYear y)) as W.
  assert (J : JSDate.Date_jan1 y = JSDate.TimeFromYear y - off).
  { subst y. rewrite (Date_jan1_recent _ E). unfold JSDate.UTC. now rewrite C. }
  assert (G : JSDate.getDay (JSDate.Date_jan1 y)
              = JSDate.WeekDay (JSDate.TimeFromYear y)).
  { rewrite J. unfold JSDate.getDay, JSDate.LocalTime. rewrite C. f_equal. lia. }
  assert (Dy : Math_floor_div (clock w - JSDate.Date_jan1 y) (24 * 60 * 60 * 1000)
               = JSCalendar.DayWithinYear lt).
  { rewrite J. unfold Math_floor_div, JSCalendar.DayWithinYear, JSDate.Day,
      JSDate.TimeFromYear, JSDate.msPerDay.
    fold (JSDate.getFullYear (clock w)). fold y.
    replace (clock w - (86400000 * JSDate.DayFromYear y - off))
      with (lt + (- JSDate.DayFromYear y) * 86400000)
      by (subst lt; unfold JSDate.LocalTime; rewrite C; lia).
    change (24 * 60 * 60 * 1000) with 86400000.
    rewrite Z.div_add by lia.
    change (JSDate.YearFromTime lt) with y. lia. }
  exists (Math_ceil_div (JSCalendar.DayWithinYear lt
                         + JSDate.WeekDay (JSDate.TimeFromYear y) + 1) 7).
  split.
  { unfold updateDateInfo. unfold_M.
    cbn [snd date_info with_date_info week_number_text].
    fold y. now rewrite Dy, G. }
  unfold Math_ceil_div.
  split; [|split].
  - Z.to_euclidean_division_equations; lia.
  - intros Z0. rewrite Z0. Z.to_euclidean_division_equations; lia.
  - Z.to_euclidean_division_equations; lia.
Qed.
End MoreHandlers.

(** ** Sequences of events *)

Section Sequences.
Context `{Host}.

Lemma Pending_eqb_eq (a b : Pending) : Pending_eqb a b = true <-> a = b.
Proof. destruct a, b; simpl; split; intros E; congruence || reflexivity. Qed.

(** [take] removes one occurrence of the call and keeps the others. *)
Lemma take_In (p : Pending) (l : list Pending) :
  In p l ->
  exists l1 l2, l = (l1 ++ p :: l2)%list /\ take p l = Some (l1 ++ l2)%list.
Proof.
  induction l as [|q l IH]; intros I; [destruct I|].
  simpl. destruct (Pending_eqb p q) eqn:Q.
  - apply Pending_eqb_eq in Q. subst q. now exists [], l.
  - destruct I as [->|I].
    + assert (Pending_eqb p p = true) by now apply Pending_eqb_eq. congruence.
    + destruct (IH I) as (l1 & l2 & -> & ->). now exists (q :: l1), l2.
Qed.

(** Settling a call that waits runs its continuation, with the call taken
    off the list of waiting calls. *)
Lemma dispatch_Settle_waiting (p : Pending) (o : Outcome (Payload p)) (w : World) :
  In p (inflight (net w)) ->
  exists l1 l2,
    inflight (net w) = (l1 ++ p :: l2)%list /\
    dispatch (Settle p o) w
    = exec (resume p o)
           (with_net (mkNet (requests (net w)) (l1 ++ l2) (console (net w))) w).
Proof.
  intros I. cbn [dispatch].
  destruct (take_In p _ I) as (l1 & l2 & E & ->). now exists l1, l2.
Qed.

Lemma dispatch_SubmitForm (w : World) :
  dispatch SubmitForm w
  = with_net (mkNet (requests (net w) ++ [POST_daily (form w)])
                    (inflight (net w) ++ [PSubmit]) (console (net w))) w.
Proof.
  cbn [dispatch]. unfold dailyForm_submit, POST_daily. unfold_M.
  cbn -[String.append]. now destruct (checked (form w)).
Qed.

Lemma dispatch_Interval (w : World) :
  dispatch Interval w
  = with_net (mkNet (requests (net w) ++ [GET "/api/today"; GET "/api/stats/"])
                    (inflight (net w) ++ [PToday; PStats]) (console (net w))) w.
Proof.
  cbn [dispatch]. unfold auto_refresh, loadTodayStatus, loadStats, GET. unfold_M.
  cbn -[String.append]. now rewrite <- !app_assoc.
Qed.

(** X14. The continuation of a read, whatever the answer, shows no
    notification, starts no request, and leaves the tabs, the date fields,
    the date info and every region but its own as they were; only the
    one of today's status touches the checkboxes. *)
Theorem reads_touch_only_their_region
    (p : Pending) (r : Region) (o : Outcome (Payload p)) (w : World) :
  region_of p = Some r ->
  let w' := exec (resume p o) w in
  toast w' = toast w /\ timeouts w' = timeouts w /\ tabs w' = tabs w /\
  date_info w' = date_info w /\
  requests (net w') = requests (net w) /\ inflight (net w') = inflight (net w) /\
  date_value (form w') = date_value (form w) /\
  startDate_value (form w') = startDate_value (form w) /\
  endDate_value (form w') = endDate_value (form w) /\
  (p <> PToday -> checked (form w') = checked (form w)) /\
  (forall r', r' <> r -> innerHTML r' (regions w') = innerHTML r' (regions w)).
Proof.
  intros R. destruct (read_resumed_frame p r o w R)
    as (T & TO & TA & _ & DI & RQ & IF & DV & SV & EV & CH & RG).
  cbv zeta. repeat split; assumption.
Qed.

(** X15. One round of the auto-refresh, from the timer to both answers,
    sends the requests of today's status and of the stats and nothing
    else, and never touches the history, the weekly and the monthly
    region, the toast, the tabs or the date fields, whatever the answers
    are. *)
Theorem auto_refresh_round (w : World) (o1 : Outcome DailyEntry) (o2 : Outcome Stats) :
  let w' := run [Interval; Settle PToday o1; Settle PStats o2] w in
  requests (net w')
  = (requests (net w) ++ [GET "/api/today"; GET "/api/stats/"])%list /\
  innerHTML historyList (regions w') = innerHTML historyList (regions w) /\
  innerHTML weeklyReports (regions w') = innerHTML weeklyReports (regions w) /\
  innerHTML monthlyReports (regions w') = innerHTML monthlyReports (regions w) /\
  toast w' = toast w /\ timeouts w' = timeouts w /\ tabs w' = tabs w /\
  date_value (form w') = date_value (form w) /\
  startDate_value (form w') = startDate_value (form w) /\
  endDate_value (form w') = endDate_value (form w).
Proof.
  cbv zeta. rewrite !run_cons. cbn [run fold_left].
  rewrite dispatch_Interval.
  set (w1 := with_net _ w).
  destruct (dispatch_Settle_waiting PToday o1 w1) as (l1 & l2 & E1 & ->).
  { subst w1. cbn [inflight net with_net]. apply in_or_app. right. now left. }
  set (w1' := with_net _ w1).
  destruct (read_resumed_frame PToday todayStatus o1 w1' eq_refl)
    as (T1 & TO1 & TA1 & _ & _ & RQ1 & IF1 & DV1 & SV1 & EV1 & _ & RG1).
  cbv zeta in *. set (w2 := exec (resume PToday o1) w1') in *.
  destruct (dispatch_Settle_waiting PStats o2 w2) as (k1 & k2 & E2 & ->).
  { rewrite IF1. subst w1'. cbn [inflight net with_net].
    assert (I : In PStats (l1 ++ PToday :: l2)).
    { rewrite <- E1. subst w1. cbn [inflight net with_net].
      apply in_or_app. right. right. now left. }
    apply in_app_or in I. apply in_or_app.
    destruct I as [I|[I|I]]; [now left|discriminate I|now right]. }
  set (w2' := with_net _ w2).
  destruct (read_resumed_frame PStats stats o2 w2' eq_refl)
    as (T2 & TO2 & TA2 & _ & _ & RQ2 & IF2 & DV2 & SV2 & EV2 & _ & RG2).
  cbv zeta in *.
  rewrite RQ2, T2, TO2, TA2, DV2, SV2, EV2.
  rewrite !RG2 by discriminate.
  subst w2'. cbn [requests net with_net toast timeouts tabs form regions].
  rewrite RQ1, T1, TO1, TA1, DV1, SV1, EV1.
  rewrite !RG1 by discriminate.
  subst w1' w1. cbn [requests net with_net toast timeouts tabs form regions].
  repeat split.
Qed.

(** X16. Saving and reading back: a submission answered with a 2xx
    status sends the date and the seven checkbox values of the form, then
    clears the checkboxes; when [/api/today] then answers with an existing
    entry that carries the flags just sent, the checkboxes are again as
    they were at the submission, and the date fields are untouched. *)
Theorem saved_entry_comes_back (w : World) (body : option ErrorBody) (echo : DailyEntry) :
  entry_flags echo = checked (form w) ->
  exists_ echo = true ->
  let w1 := dispatch SubmitForm w in
  let w2 := dispatch (Settle PSubmit (Response true body)) w1 in
  let w3 := dispatch (Settle PToday (Response true (Some echo))) w2 in
  requests (net w1) = (requests (net w) ++ [POST_daily (form w)])%list /\
  (forall t, checkbox t w2 = false) /\
  form w3 = form w.
Proof.
  intros F X. cbv zeta. rewrite dispatch_SubmitForm.
  set (w1 := with_net _ w).
  split; [reflexivity|].
  destruct (dispatch_Settle_waiting PSubmit (Response true body) w1)
    as (l1 & l2 & E1 & ->).
  { subst w1. cbn [inflight net with_net]. apply in_or_app. right. now left. }
  cbn [resume]. set (w1' := with_net _ w1).
  rewrite submit_success_run, exec_reload_all, exec_clearForm, exec_showToast.
  set (w2 := with_net _ _).
  split; [intros t; now destruct t|].
  destruct (dispatch_Settle_waiting PToday (Response true (Some echo)) w2)
    as (k1 & k2 & E2 & ->).
  { subst w2. cbn [inflight net with_net]. apply in_or_app. right. now left. }
  cbn [resume]. rewrite loadTodayStatus_resumed_run. cbv zeta. rewrite X, F.
  subst w2 w1' w1.
  cbn [form with_form with_net with_regions with_toast with_timeouts exec
       assign_innerHTML modify snd date_value startDate_value endDate_value].
  now destruct (form w).
Qed.

(** X17. A refused or failed submission can be repeated as it is: the
    next submit sends the same request again. *)
Theorem failed_submission_can_be_repeated (w : World) (o : Outcome ErrorBody) :
  failed o ->
  let w' := run [SubmitForm; Settle PSubmit o; SubmitForm] w in
  requests (net w')
  = (requests (net w) ++ [POST_daily (form w); POST_daily (form w)])%list /\
  form w' = form w.
Proof.
  intros F. cbv zeta. rewrite !run_cons. cbn [run fold_left].
  rewrite (dispatch_SubmitForm w).
  set (w1 := with_net _ w).
  destruct (dispatch_Settle_waiting PSubmit o w1) as (l1 & l2 & E1 & ->).
  { subst w1. cbn [inflight net with_net]. apply in_or_app. right. now left. }
  cbn [resume]. set (w1' := with_net _ w1).
  rewrite (submit_failure_run o w1' F), exec_showToast, dispatch_SubmitForm.
  subst w1' w1. cbn [form net requests with_net with_toast with_timeouts].
  split; [|reflexivity]. now rewrite <- app_assoc.
Qed.
End Sequences.

Section StatsFacts.
Context `{Host}.

(** X18. The Weeks and Months counters show 0 when the field is absent
    from the stats, and also when it is zero, negative zero or NaN; any
    other number is shown as it is. *)
Theorem stats_counters_default_to_zero (data : Stats) (w : World) :
  let html := innerHTML stats
                (regions (exec (loadStats_resumed (Response true (Some data))) w)) in
  let shown (x : option float) : string :=
    match x with
    | None => "0"
    | Some v => if is_nan v || is_zero v then "0" else JSNumber.toString v
    end in
  html = statsHtml data /\
  occurs_in (stat_item (JSNumber.toString (total_days_tracked data)) "Days Tracked") html /\
  occurs_in (stat_item (shown (total_weeks_reported data)) "Weeks") html /\
  occurs_in (stat_item (shown (total_months_reported data)) "Months") html.
Proof.
  cbv zeta.
  assert (Z : forall x, JSNumber.toString (or_zero x)
                        = match x with
                          | None => "0"
                          | Some v => if is_nan v || is_zero v then "0"
                                      else JSNumber.toString v
                          end).
  { intros [v|]; [|reflexivity]. unfold or_zero, JSNumber.truthy.
    destruct (is_nan v || is_zero v); reflexivity. }
  change (innerHTML stats
            (regions (exec (loadStats_resumed (Response true (Some data))) w)))
    with (statsHtml data).
  split; [reflexivity|]. unfold statsHtml. rewrite <- !Z.
  split; [|split].
  - apply occurs_in_append_l, occurs_in_refl.
  - apply occurs_in_append_r, occurs_in_append_l, occurs_in_refl.
  - do 2 apply occurs_in_append_r. apply occurs_in_append_l, occurs_in_refl.
Qed.
End StatsFacts.

(* ================================================================== *)
(** * The further properties on a concrete page *)
(* ================================================================== *)

Example formatDate_samples :
  map (formatDate (H := utc_host))
      [Some 0; Some 1710504000000; Some 951782400000; Some (-1); None]
  = ["1970-01-01"; "2024-03-15"; "2000-02-29"; "1969-12-31"; "NaN-NaN-NaN"].
Proof. vm_compute. reflexivity. Qed.

(** Noon of March 15th, 2024. *)
Lemma formatDate_shape_witness :
  1000 <= JSDate.getFullYear (H := utc_host) 1710504000000 <= 9999 /\
  formatDate (H := utc_host) (Some 1710504000000) = "2024-03-15" /\
  String.length (formatDate (H := utc_host) (Some 1710504000000)) = 10%nat.
Proof.
  assert (Y : 1000 <= JSDate.getFullYear (H := utc_host) 1710504000000 <= 9999)
    by (vm_compute; split; discriminate).
  destruct (formatDate_shape (H := utc_host) 1710504000000 Y)
    as (yyyy & mm & dd & E & _ & _ & _ & L & Ey & Em & Ed & _).
  split; [exact Y|]. split; [|exact L].
  rewrite E, Ey, Em, Ed. vm_compute. reflexivity.
Defined.

(** A week before March 3rd of a leap year is February 25th. *)
Lemma weekAgo_seven_days_back_witness :
  (forall t isUTC, LocalTZA (Host := utc_host) t isUTC = 0) /\
  Z.abs (1709467200000 - 7 * JSDate.msPerDay) <= 8640000000000000 /\
  weekAgo (H := utc_host) 1709467200000 = Some 1708862400000 /\
  JSDate.Day (JSDate.LocalTime (H := utc_host) 1708862400000)
  = JSDate.Day (JSDate.LocalTime (H := utc_host) 1709467200000) - 7.
Proof.
  assert (C : forall t isUTC, LocalTZA (Host := utc_host) t isUTC = 0) by reflexivity.
  assert (R : Z.abs (1709467200000 - 7 * JSDate.msPerDay) <= 8640000000000000)
    by (vm_compute; discriminate).
  destruct (proj2 (weekAgo_seven_days_back (H := utc_host) 1709467200000) 0 C R)
    as [E D].
  split; [exact C|]. split; [exact R|]. split; [exact E|exact D].
Defined.

(** The weekly reports answered with a body that is not JSON. *)
Lemma unreadable_body_like_thrown_request_witness :
  region_of PWeekly = Some weeklyReports /\
  innerHTML weeklyReports
    (regions (exec (resume (H := utc_host) PWeekly (Response true None)) page))
  = "<p>Loading...</p>".
Proof.
  split; [reflexivity|].
  rewrite (unreadable_body_like_thrown_request (H := utc_host) PWeekly weeklyReports
             page eq_refl).
  reflexivity.
Defined.

Lemma page_selectors_name_views : selectors_name_views (tabs page).
Proof.
  intros b [<-|[<-|[<-|[]]]]; eexists; (split; [|reflexivity]); cbn; auto.
Defined.

Lemma page_tabs_exclusive : tabs_exclusive (tabs page).
Proof.
  exists "weekly". split; [now left|]. split; [reflexivity|]. split.
  - intros b [<-|[<-|[<-|[]]]]; reflexivity.
  - intros p [<-|[<-|[<-|[]]]]; reflexivity.
Defined.

(** Clicks on the monthly and the history button among other events. *)
Lemma tabs_stay_exclusive_witness :
  let w' := run (H := utc_host)
              [ClickTab 1; Toggle Gym; ClickTab 2; ClickTab 2; Interval; ClickTab 7] page in
  selectors_name_views (tabs page) /\
  one_selector_per_view (tabs page) /\
  tabs_exclusive (tabs page) /\
  exists v b p,
    In v views /\ currentTab (tabs w') = Some v /\
    active_btns w' = [b] /\ data_tab b = Some v /\
    active_panels w' = [p] /\ panel_id p = v ++ "Tab".
Proof.
  cbv zeta.
  split; [exact page_selectors_name_views|].
  split; [exact page_one_selector_per_view|].
  split; [exact page_tabs_exclusive|].
  exact (tabs_stay_exclusive (H := utc_host) _ page page_selectors_name_views
           page_one_selector_per_view page_tabs_exclusive).
Defined.

(** A failed submission, then one second. *)
Lemma toast_always_hides_witness :
  let es := [SubmitForm; Settle PSubmit NetworkError; Elapse 1000; Toggle Gym] in
  toast_visible page = false /\
  timeouts page = [] /\
  toast_visible (run (H := utc_host) es page) = true /\
  toast_visible (dispatch (H := utc_host) (Elapse 3000) (run (H := utc_host) es page))
  = false.
Proof.
  cbv zeta. split; [reflexivity|]. split; [reflexivity|]. split; [reflexivity|].
  exact (proj2 (toast_always_hides (H := utc_host)
                  [SubmitForm; Settle PSubmit NetworkError; Elapse 1000; Toggle Gym]
                  page eq_refl eq_refl)).
Defined.

(** Noon of December 31st, 2028, a leap year that began on a Saturday:
    week 54. *)
Lemma week_number_range_witness :
  let w := with_clock 1861876800000 page in
  (forall t isUTC, LocalTZA (Host := utc_host) t isUTC = 0) /\
  0 <= clock w /\
  week_number_text (date_info (exec (updateDateInfo (H := utc_host)) w)) = "54".
Proof.
  cbv zeta.
  assert (C : forall t isUTC, LocalTZA (Host := utc_host) t isUTC = 0) by reflexivity.
  assert (E : 0 <= clock (with_clock 1861876800000 page)) by (cbn; lia).
  destruct (week_number_range (H := utc_host) 0 (with_clock 1861876800000 page) C E)
    as (n & T & _ & _ & N).
  split; [exact C|]. split; [exact E|]. rewrite T, N. vm_compute. reflexivity.
Defined.

(** Today's status answered with an existing entry. *)
Lemma reads_touch_only_their_region_witness :
  let o : Outcome (Payload PToday) :=
    Response true (Some (mkDailyEntry "2024-03-15"
                           (mkFlags true false false false false false true) true)) in
  let w' := exec (resume (H := utc_host) PToday o) page in
  region_of PToday = Some todayStatus /\
  toast w' = toast page /\
  innerHTML stats (regions w') = innerHTML stats (regions page) /\
  checkbox Aws w' = true.
Proof.
  cbv zeta.
  destruct (reads_touch_only_their_region (H := utc_host) PToday todayStatus
              (Response true (Some (mkDailyEntry "2024-03-15"
                 (mkFlags true false false false false false true) true)))
              page eq_refl) as (T & _ & _ & _ & _ & _ & _ & _ & _ & _ & R).
  split; [reflexivity|]. split; [exact T|]. split; [|reflexivity].
  apply R. discriminate.
Defined.

(** Gym and AWS ticked, saved, and read back. *)
Lemma saved_entry_comes_back_witness :
  let w := run (H := utc_host) [Toggle Gym; Toggle Aws; EditDate "2024-03-15"] page in
  let echo := mkDailyEntry "2024-03-15"
                (mkFlags true false false false false false true) true in
  let w1 := dispatch (H := utc_host) SubmitForm w in
  let w2 := dispatch (H := utc_host) (Settle PSubmit (Response true None)) w1 in
  let w3 := dispatch (H := utc_host) (Settle PToday (Response true (Some echo))) w2 in
  entry_flags echo = checked (form w) /\
  exists_ echo = true /\
  checkbox Gym w2 = false /\
  form w3 = form w.
Proof.
  cbv zeta.
  destruct (saved_entry_comes_back (H := utc_host)
              (run (H := utc_host) [Toggle Gym; Toggle Aws; EditDate "2024-03-15"] page)
              None
              (mkDailyEntry "2024-03-15"
                 (mkFlags true false false false false false true) true)
              eq_refl eq_refl) as (_ & U & F).
  split; [reflexivity|]. split; [reflexivity|]. split; [apply U|exact F].
Defined.

(** A submission that threw, submitted again. *)
Lemma failed_submission_can_be_repeated_witness :
  let w := run (H := utc_host) [Toggle Dsa; EditDate "2024-03-15"] page in
  let w' := run (H := utc_host) [SubmitForm; Settle PSubmit NetworkError; SubmitForm] w in
  failed (@NetworkError ErrorBody) /\
  requests (net w')
  = [POST_daily (H := utc_host) (form w); POST_daily (H := utc_host) (form w)] /\
  form w' = form w.
Proof.
  cbv zeta.
  destruct (failed_submission_can_be_repeated (H := utc_host)
              (run (H := utc_host) [Toggle Dsa; EditDate "2024-03-15"] page)
              NetworkError I) as [R F].
  split; [exact I|]. split; [exact R|exact F].
Defined.
